(** * Coffee Shop API: authentication, verification codes and account cleanup

    A shallow embedding of the account and token subsystem of the
    service (app/core/security.py, app/core/dependencies.py,
    app/services/auth_service.py, app/services/user_service.py,
    app/tasks/cleanup.py) together with the properties of its
    specification.

    Conventions of the embedding:
    - the users table is a finite map from the primary key [id] to the
      remaining columns, so primary-key uniqueness is structural;
    - a Python call that may raise returns a [Result]; [try]/[except] is
      [try_except];
    - every reading of the wall clock ([datetime.now(timezone.utc)], the
      clock read inside [jose.jwt.decode], the database [now()]) is an
      explicit argument, in microseconds since the epoch;
    - the bcrypt primitive and the JWS signing primitive are section
      variables; what the program itself does around them is modelled in
      full. *)

From Stdlib Require Import ZArith Lia Ascii String DecimalString DecimalZ DecimalPos.
From stdpp Require Import base option list gmap strings fin_maps.

Local Open Scope string_scope.
Local Open Scope Z_scope.

(** ** Exceptions and results *)

Inductive PyExc : Type :=
| HTTPException (status_code : Z) (detail : string)
    (headers : list (string * string))
| JWTError (msg : string)
| ValueError (msg : string)
| TypeError (msg : string)
| MultipleResultsFound
| IntegrityError (msg : string).

Inductive Result (A : Type) : Type :=
| Ok (a : A)
| Raise (e : PyExc).
Arguments Ok {A} a.
Arguments Raise {A} e.

#[export] Instance result_ret : MRet Result := fun _ a => Ok a.
#[export] Instance result_bind : MBind Result := fun _ _ f r =>
  match r with
  | Ok a => f a
  | Raise e => Raise e
  end.

Definition try_except {A} (body : Result A) (handler : PyExc -> Result A)
  : Result A :=
  match body with
  | Ok a => Ok a
  | Raise e => handler e
  end.

Definition is_HTTPException (e : PyExc) : bool :=
  match e with
  | HTTPException _ _ _ => true
  | _ => false
  end.

Definition HTTP_400_BAD_REQUEST : Z := 400.
Definition HTTP_401_UNAUTHORIZED : Z := 401.
Definition HTTP_404_NOT_FOUND : Z := 404.
Definition HTTP_500_INTERNAL_SERVER_ERROR : Z := 500.

(** ** Dates and durations

    A [datetime] holds its wall-clock fields as microseconds since
    1970-01-01T00:00:00 in its own zone, and [tzinfo] as the UTC offset in
    microseconds; [None] is a naive value.  A [timedelta] is a number of
    microseconds. *)

Record datetime : Type := mkDatetime {
  micros : Z;
  tzinfo : option Z
}.

#[export] Instance datetime_eq_dec : EqDecision datetime.
Proof. solve_decision. Defined.

Definition timedelta_days (d : Z) : Z := d * 86400000000.
Definition timedelta_hours (h : Z) : Z := h * 3600000000.
Definition timedelta_minutes (m : Z) : Z := m * 60000000.

(** [datetime.now(timezone.utc)] at clock reading [now]. *)
Definition utc_now (now : Z) : datetime :=
  {| micros := now; tzinfo := Some 0 |}.

Definition dt_add (d : datetime) (delta : Z) : datetime :=
  {| micros := micros d + delta; tzinfo := tzinfo d |}.

Definition dt_sub (d : datetime) (delta : Z) : datetime :=
  {| micros := micros d - delta; tzinfo := tzinfo d |}.

(** [d.replace(tzinfo=timezone.utc)] *)
Definition replace_tzinfo_utc (d : datetime) : datetime :=
  {| micros := micros d; tzinfo := Some 0 |}.

(** Python's [a < b] on datetimes: aware values compare as instants, naive
    values by their fields, and a mixed comparison raises. *)
Definition dt_lt (a b : datetime) : Result bool :=
  match tzinfo a, tzinfo b with
  | Some oa, Some ob => Ok (micros a - oa <? micros b - ob)
  | None, None => Ok (micros a <? micros b)
  | _, _ => Raise (TypeError "can't compare offset-naive and offset-aware datetimes")
  end.

(** The instant a stored timestamp denotes in the database: a value
    stored without zone is taken as UTC. *)
Definition sql_instant (d : datetime) : Z :=
  micros d - default 0 (tzinfo d).

(** SQL [column < :param] on timestamps. *)
Definition sql_lt (a b : datetime) : bool :=
  sql_instant a <? sql_instant b.

(** [calendar.timegm(d.utctimetuple())]: whole seconds since the epoch,
    microseconds dropped. *)
Definition timegm_utc (d : datetime) : Z :=
  sql_instant d / 1000000.

(** ** Configuration (app/core/config.py) *)

Record Settings : Type := mkSettings {
  SECRET_KEY : string;
  ALGORITHM : string;
  ACCESS_TOKEN_EXPIRE_MINUTES : Z;
  REFRESH_TOKEN_EXPIRE_DAYS : Z;
  VERIFICATION_CODE_EXPIRE_HOURS : Z;
  UNVERIFIED_USER_DELETE_DAYS : Z
}.

(** The defaults of the class [Settings]; [SECRET_KEY] has none and comes
    from the environment. *)
Definition default_settings (secret : string) : Settings :=
  {| SECRET_KEY := secret;
     ALGORITHM := "HS256";
     ACCESS_TOKEN_EXPIRE_MINUTES := 30;
     REFRESH_TOKEN_EXPIRE_DAYS := 7;
     VERIFICATION_CODE_EXPIRE_HOURS := 24;
     UNVERIFIED_USER_DELETE_DAYS := 2 |}.

(** ** Python values in token payloads, [str] and [int] *)

Inductive PyVal : Type :=
| PNone
| PBool (b : bool)
| PInt (z : Z)
| PStr (s : string)
| PDatetime (d : datetime).

#[export] Instance PyVal_eq_dec : EqDecision PyVal.
Proof. solve_decision. Defined.

(** Text is held as its UTF-8 encoding.  [len(s)] counts characters:
    every byte but the continuation bytes 0x80 to 0xBF starts one. *)
Definition is_continuation (c : ascii) : bool :=
  let n := N_of_ascii c in
  ((128 <=? n) && (n <=? 191))%N.

Fixpoint py_len (s : string) : nat :=
  match s with
  | EmptyString => 0%nat
  | String c r => if is_continuation c then py_len r else S (py_len r)
  end.

(** [str(z)] for an integer. *)
Definition py_str (z : Z) : string :=
  NilZero.string_of_int (Z.to_int z).

(** Characters that [str.strip] removes (ASCII range). *)
Definition is_space (c : ascii) : bool :=
  let n := N_of_ascii c in
  ((9 <=? n) && (n <=? 13) || (28 <=? n) && (n <=? 32))%N.

Definition is_digit (c : ascii) : bool :=
  let n := N_of_ascii c in
  ((48 <=? n) && (n <=? 57))%N.

Fixpoint lstrip (s : string) : string :=
  match s with
  | String c r => if is_space c then lstrip r else s
  | EmptyString => EmptyString
  end.

Fixpoint rstrip (s : string) : string :=
  match s with
  | String c r =>
      match rstrip r with
      | EmptyString => if is_space c then EmptyString else String c EmptyString
      | r' => String c r'
      end
  | EmptyString => EmptyString
  end.

(** Removes the underscores of an integer literal; an underscore is legal
    only between two digits. [prev] tells whether the previous character
    was a digit. *)
Fixpoint drop_underscores (prev : bool) (s : string) : option string :=
  match s with
  | EmptyString => if prev then Some EmptyString else None
  | String c r =>
      if Ascii.eqb c "_" then
        if prev then
          match r with
          | EmptyString => None
          | _ => drop_underscores false r
          end
        else None
      else if is_digit c then String c <$> drop_underscores true r
      else None
  end.

(** [int(s)] for a string, base ten: surrounding whitespace, an optional
    sign, digits with single underscores between them. *)
Definition py_int_of_str (s : string) : option Z :=
  let t := rstrip (lstrip s) in
  let '(neg, body) :=
    match t with
    | String c r =>
        if Ascii.eqb c "-" then (true, r)
        else if Ascii.eqb c "+" then (false, r)
        else (false, t)
    | EmptyString => (false, t)
    end in
  match body with
  | EmptyString => None
  | String c _ =>
      if is_digit c then
        d ← drop_underscores true body;
        u ← NilZero.uint_of_string d;
        Some (if neg then - Z.of_uint u else Z.of_uint u)
      else None
  end.

(** [int(v)]: [TypeError] for [None] and a datetime, [ValueError] for a
    string that is no integer literal. *)
Definition py_int (v : PyVal) : Result Z :=
  match v with
  | PInt z => Ok z
  | PBool b => Ok (Z.b2z b)
  | PStr s =>
      match py_int_of_str s with
      | Some z => Ok z
      | None => Raise (ValueError "invalid literal for int() with base 10")
      end
  | PNone | PDatetime _ =>
      Raise (TypeError "int() argument must be a string, a bytes-like object or a real number")
  end.

(** ** The users table (app/models/user.py) *)

Inductive UserRole : Type := USER | ADMIN.

#[export] Instance UserRole_eq_dec : EqDecision UserRole.
Proof. solve_decision. Defined.

(** The columns of a row other than the primary key [id], which is the key
    of the table map. *)
Record User : Type := mkUser {
  email : string;
  hashed_password : string;
  first_name : option string;
  last_name : option string;
  role : UserRole;
  is_verified : bool;
  verification_code : option string;
  verification_code_expires_at : option datetime;
  created_at : datetime;
  updated_at : option datetime
}.

#[export] Instance User_eq_dec : EqDecision User.
Proof. solve_decision. Defined.

(** Statements a session sends to the database, in order. *)
Inductive Stmt : Type :=
| SelectStmt
| DeleteStmt (ids : list Z)
| CommitStmt
| RollbackStmt.

(** [select(User).where(User.id == user_id)] *)
Definition select_by_id (s : gmap Z User) (user_id : Z) : list (Z * User) :=
  match s !! user_id with
  | Some u => [(user_id, u)]
  | None => []
  end.

(** [select(User).where(User.email == e)] *)
Definition select_by_email (s : gmap Z User) (e : string) : list (Z * User) :=
  filter (fun r => email r.2 = e) (map_to_list s).

(** [result.scalar_one_or_none()] *)
Definition scalar_one_or_none {A} (rows : list A) : Result (option A) :=
  match rows with
  | [] => Ok None
  | [x] => Ok (Some x)
  | _ => Raise MultipleResultsFound
  end.

(** Python truthiness of an optional string: [None] and the empty string
    are false. *)
Definition truthy_str (o : option string) : bool :=
  match o with
  | Some (String _ _) => true
  | _ => false
  end.

(** ** Library primitives

    [bcrypt_hash salt secret] and [bcrypt_verify secret hash] are the
    bcrypt handler of passlib on a hash it has identified;
    [jws_sign claims key alg] and [jws_verify token key alg] are the
    compact JWS serialisation of python-jose, [jws_verify] returning the
    library's message when the signature or the structure is bad.
    [next_id] is the key the database assigns to an inserted row.
    [validate_email] is the check behind pydantic's [EmailStr]: the
    normalised address, or [None] when the string is refused. *)

Record Libs : Type := mkLibs {
  bcrypt_hash : string -> string -> string;
  bcrypt_verify : string -> string -> Result bool;
  jws_sign : gmap string PyVal -> string -> string -> string;
  jws_verify : string -> string -> string -> string + gmap string PyVal;
  next_id : gmap Z User -> Z;
  validate_email : string -> option string
}.

(** The message of an exception, [str(e)]. *)
Definition exc_str (e : PyExc) : string :=
  match e with
  | HTTPException _ d _ => d
  | JWTError m | ValueError m | TypeError m | IntegrityError m => m
  | MultipleResultsFound =>
      "Multiple rows were found when one or none was required"
  end.

Section Service.

Variable lib : Libs.
Variable settings : Settings.

(** *** app/core/security.py *)

(** [pwd_context.hash(password)]; the salt is drawn by the library. *)
Definition hash_password (salt password : string) : string :=
  bcrypt_hash lib salt password.

(** The bcrypt scheme recognises a hash by its identifier prefix. *)
Definition bcrypt_identify (hash : string) : bool :=
  existsb (fun p => String.prefix p hash)
    ["$2$"; "$2a$"; "$2x$"; "$2y$"; "$2b$"].

(** [CryptContext(schemes=["bcrypt"]).verify(secret, hash)]: the context
    first looks for a scheme that identifies the hash and raises when
    there is none. *)
Definition pwd_context_verify (secret hash : string) : Result bool :=
  if bcrypt_identify hash then bcrypt_verify lib secret hash
  else
    match hash with
    | EmptyString => Raise (ValueError "hash not specified")
    | _ => Raise (ValueError "hash could not be identified")
    end.

Definition verify_password (plain_password hashed_password : string)
  : Result bool :=
  pwd_context_verify plain_password hashed_password.

(** [jose.jwt.encode]: a datetime under [exp], [iat] or [nbf] becomes
    its integer date, then the claims are signed. *)
Definition intdate_claims (claims : gmap string PyVal) : gmap string PyVal :=
  foldr (fun k c =>
           match c !! k with
           | Some (PDatetime d) => <[k := PInt (timegm_utc d)]> c
           | _ => c
           end) claims ["exp"; "iat"; "nbf"].

Definition jwt_encode (claims : gmap string PyVal) (key alg : string) : string :=
  jws_sign lib (intdate_claims claims) key alg.

Definition create_access_token (data : gmap string PyVal)
    (expires_delta : option Z) (now : Z) : string :=
  let to_encode := data in
  let expire :=
    match expires_delta with
    | Some d =>
        if bool_decide (d = 0)
        then dt_add (utc_now now)
               (timedelta_minutes (ACCESS_TOKEN_EXPIRE_MINUTES settings))
        else dt_add (utc_now now) d
    | None =>
        dt_add (utc_now now)
          (timedelta_minutes (ACCESS_TOKEN_EXPIRE_MINUTES settings))
    end in
  let to_encode := <["exp" := PDatetime expire]> to_encode in
  jwt_encode to_encode (SECRET_KEY settings) (ALGORITHM settings).

Definition create_refresh_token (data : gmap string PyVal) (now : Z) : string :=
  let to_encode := data in
  let expire :=
    dt_add (utc_now now)
      (timedelta_days (REFRESH_TOKEN_EXPIRE_DAYS settings)) in
  let to_encode :=
    <["type" := PStr "refresh"]> (<["exp" := PDatetime expire]> to_encode) in
  jwt_encode to_encode (SECRET_KEY settings) (ALGORITHM settings).

(** Exceptions of python-jose below [JWTError]. *)
Inductive JoseExc : Type :=
| ExpiredSignatureError
| JWTClaimsError (msg : string)
| OtherJWTError (msg : string)
| NotJose (e : PyExc).

(** [_validate_exp]: the claim must be an integer and not lie before the
    current second. *)
Definition validate_exp (claims : gmap string PyVal) (now : Z)
  : JoseExc + unit :=
  match claims !! "exp" with
  | None => inr tt
  | Some v =>
      match py_int v with
      | Ok exp =>
          if exp <? timegm_utc (utc_now now)
          then inl ExpiredSignatureError
          else inr tt
      | Raise (ValueError _) =>
          inl (JWTClaimsError "Expiration Time claim (exp) must be an integer.")
      | Raise e => inl (NotJose e)
      end
  end.

(** [_validate_sub]: a subject, when present, must be a string. *)
Definition validate_sub (claims : gmap string PyVal) : JoseExc + unit :=
  match claims !! "sub" with
  | None | Some (PStr _) => inr tt
  | Some _ => inl (JWTClaimsError "Subject must be a string.")
  end.

(** [jose.jwt.decode(token, key, algorithms=[alg])] on the claims this
    service writes: signature and structure, then [exp], then [sub]. *)
Definition jwt_decode (token key alg : string) (now : Z)
  : JoseExc + gmap string PyVal :=
  match jws_verify lib token key alg with
  | inl msg => inl (OtherJWTError msg)
  | inr claims =>
      match validate_exp claims now with
      | inl e => inl e
      | inr _ =>
          match validate_sub claims with
          | inl e => inl e
          | inr _ => inr claims
          end
      end
  end.

Definition decode_token (token : string) (now : Z)
  : Result (gmap string PyVal) :=
  match jwt_decode token (SECRET_KEY settings) (ALGORITHM settings) now with
  | inr payload => Ok payload
  | inl ExpiredSignatureError => Raise (JWTError "Token has expired")
  | inl (JWTClaimsError _) => Raise (JWTError "Invalid token claims")
  | inl (OtherJWTError m) => Raise (JWTError ("Could not decode token: " +:+ m))
  | inl (NotJose e) =>
      Raise (JWTError ("Could not decode token: " +:+ exc_str e))
  end.

(** [payload.get(k)] *)
Definition payload_get (payload : gmap string PyVal) (k : string) : PyVal :=
  default PNone (payload !! k).

(** *** app/core/dependencies.py *)

Definition credentials_exception : PyExc :=
  HTTPException HTTP_401_UNAUTHORIZED "Could not validate credentials"
    [("WWW-Authenticate", "Bearer")].

Definition get_current_user (s : gmap Z User) (token : string) (now : Z)
  : Result (Z * User) :=
  user_id ← try_except
    (payload ← decode_token token now;
     let user_id_str := payload_get payload "sub" in
     match user_id_str with
     | PNone => Raise credentials_exception
     | _ =>
         try_except (py_int user_id_str)
           (fun e =>
              match e with
              | TypeError _ | ValueError _ => Raise credentials_exception
              | _ => Raise e
              end)
     end)
    (fun e => Raise credentials_exception);
  try_except
    (user ← scalar_one_or_none (select_by_id s user_id);
     match user with
     | None => Raise (HTTPException HTTP_404_NOT_FOUND "User not found" [])
     | Some u => Ok u
     end)
    (fun e =>
       if is_HTTPException e then Raise e
       else Raise (HTTPException HTTP_500_INTERNAL_SERVER_ERROR
                     "Error fetching user" [])).

(** *** app/schemas/auth.py *)

Record SignupRequest : Type := mkSignupRequest {
  signup_email : string;
  signup_password : string;
  signup_first_name : option string;
  signup_last_name : option string
}.

Record LoginRequest : Type := mkLoginRequest {
  login_email : string;
  login_password : string
}.

Record TokenResponse : Type := mkTokenResponse {
  access_token : string;
  refresh_token : string;
  token_type : string
}.

(** *** app/services/auth_service.py *)

(** [secrets.randbelow(n)], the [i]-th draw from the entropy source
    [rng]. *)
Definition secrets_randbelow (rng : nat -> Z) (n : Z) (i : nat) : Z :=
  rng i `mod` n.

(** [''.join([str(secrets.randbelow(10)) for _ in range(6)])] *)
Definition gen_verification_code (rng : nat -> Z) : string :=
  String.concat EmptyString (map (fun i => py_str (secrets_randbelow rng 10 i)) (seq 0 6)).

(** The claims [{"sub": str(id)}] every caller passes to the issuers. *)
Definition sub_claims (id : Z) : gmap string PyVal :=
  {[ "sub" := PStr (py_str id) ]}.

Definition token_pair (id : Z) (t_access t_refresh : Z) : TokenResponse :=
  {| access_token := create_access_token (sub_claims id) None t_access;
     refresh_token := create_refresh_token (sub_claims id) t_refresh;
     token_type := "bearer" |}.

(** [register_user]. [t_exp] is the clock when the expiry is computed,
    [t_db] the database clock at the insert, [t_access] and [t_refresh]
    the clock when each token is made. *)
Definition register_user (s : gmap Z User) (request : SignupRequest)
    (rng : nat -> Z) (salt_pw salt_code : string)
    (t_exp t_db t_access t_refresh : Z)
  : gmap Z User * Result TokenResponse :=
  match scalar_one_or_none (select_by_email s (signup_email request)) with
  | Raise e => (s, Raise e)
  | Ok (Some _) =>
      (s, Raise (HTTPException HTTP_400_BAD_REQUEST
                   "Email already registered" []))
  | Ok None =>
      let verification_code := gen_verification_code rng in
      let expires_at :=
        dt_add (utc_now t_exp)
          (timedelta_hours (VERIFICATION_CODE_EXPIRE_HOURS settings)) in
      let new_user :=
        {| email := signup_email request;
           hashed_password := hash_password salt_pw (signup_password request);
           first_name := signup_first_name request;
           last_name := signup_last_name request;
           role := USER;
           is_verified := false;
           verification_code :=
             Some (hash_password salt_code verification_code);
           verification_code_expires_at := Some expires_at;
           created_at := utc_now t_db;
           updated_at := None |} in
      let new_id := next_id lib s in
      (<[new_id := new_user]> s, Ok (token_pair new_id t_access t_refresh))
  end.

Definition invalid_login : PyExc :=
  HTTPException HTTP_401_UNAUTHORIZED "Incorrect email or password"
    [("WWW-Authenticate", "Bearer")].

Definition login_user (s : gmap Z User) (request : LoginRequest)
    (t_access t_refresh : Z) : Result TokenResponse :=
  user ← scalar_one_or_none (select_by_email s (login_email request));
  match user with
  | None => Raise invalid_login
  | Some (id, u) =>
      ok ← verify_password (login_password request) (hashed_password u);
      if negb ok then Raise invalid_login
      else Ok (token_pair id t_access t_refresh)
  end.

Definition bad_request (detail : string) : PyExc :=
  HTTPException HTTP_400_BAD_REQUEST detail [].

Definition AlreadyVerified : PyExc := bad_request "Email already verified".
Definition NoCodeIssued : PyExc :=
  bad_request "No verification code found. Please request a new one.".
Definition CodeExpired : PyExc :=
  bad_request "Verification code expired. Please request a new one.".
Definition InvalidCode : PyExc := bad_request "Invalid verification code".

(** The expiry test of [verify_email]: a naive stored value is given the
    UTC zone, then compared with the clock. *)
Definition code_expired (expires_at : datetime) (now : Z) : Result bool :=
  let expires_at :=
    match tzinfo expires_at with
    | None => replace_tzinfo_utc expires_at
    | Some _ => expires_at
    end in
  dt_lt expires_at (utc_now now).

(** [verify_email] on the row [user] loaded under key [id]; [now] is the
    clock of the expiry test and [t_db] the database clock of the
    update. *)
Definition verify_email (s : gmap Z User) (code : string)
    (id : Z) (user : User) (now t_db : Z)
  : gmap Z User * Result (list (string * string)) :=
  if is_verified user then (s, Raise AlreadyVerified)
  else if negb (truthy_str (verification_code user)) then
    (s, Raise NoCodeIssued)
  else
    let expired :=
      match verification_code_expires_at user with
      | Some expires_at => code_expired expires_at now
      | None => Ok false
      end in
    match expired with
    | Raise e => (s, Raise e)
    | Ok true => (s, Raise CodeExpired)
    | Ok false =>
        match verify_password code (default EmptyString (verification_code user)) with
        | Raise e => (s, Raise e)
        | Ok false => (s, Raise InvalidCode)
        | Ok true =>
            let user' :=
              {| email := email user;
                 hashed_password := hashed_password user;
                 first_name := first_name user;
                 last_name := last_name user;
                 role := role user;
                 is_verified := true;
                 verification_code := None;
                 verification_code_expires_at := None;
                 created_at := created_at user;
                 updated_at := Some (utc_now t_db) |} in
            (<[id := user']> s,
             Ok [("message", "Email verified successfully");
                 ("email", email user)])
        end
    end.

Definition unauthorized (detail : string) : PyExc :=
  HTTPException HTTP_401_UNAUTHORIZED detail [].

(** [refresh_access_token]. [t_decode] is the clock read by the decoder,
    [t_access] and [t_refresh] the clock when each new token is made. *)
Definition refresh_access_token (s : gmap Z User) (refresh_token : string)
    (t_decode t_access t_refresh : Z) : Result TokenResponse :=
  user_id ← try_except
    (payload ← decode_token refresh_token t_decode;
     if bool_decide (payload_get payload "type" ≠ PStr "refresh") then
       Raise (unauthorized "Invalid token type")
     else
       let user_id_str := payload_get payload "sub" in
       match user_id_str with
       | PNone => Raise (unauthorized "Invalid token")
       | _ =>
           try_except (py_int user_id_str)
             (fun e =>
                match e with
                | TypeError _ | ValueError _ =>
                    Raise (unauthorized "Invalid user ID in token")
                | _ => Raise e
                end)
       end)
    (fun e =>
       if is_HTTPException e then Raise e
       else Raise (unauthorized "Invalid or expired refresh token"));
  user ← scalar_one_or_none (select_by_id s user_id);
  match user with
  | None => Raise (HTTPException HTTP_404_NOT_FOUND "User not found" [])
  | Some (id, _) => Ok (token_pair id t_access t_refresh)
  end.

(** *** app/schemas/user.py and app/services/user_service.py *)

(** A validated [UserUpdate]: for each field, [None] when the request
    left it unset, [Some v] when it was given ([v] itself may be
    [None], a JSON null). *)
Record UserUpdate : Type := mkUserUpdate {
  upd_first_name : option (option string);
  upd_last_name : option (option string);
  upd_email : option (option string)
}.

Record UserResponse : Type := mkUserResponse {
  resp_id : Z;
  resp_email : string;
  resp_first_name : option string;
  resp_last_name : option string;
  resp_role : string;
  resp_is_verified : bool;
  resp_created_at : datetime;
  resp_updated_at : option datetime
}.

Definition role_value (r : UserRole) : string :=
  match r with
  | USER => "user"
  | ADMIN => "admin"
  end.

(** [Field(None, max_length=50)] on an optional name. *)
Definition too_long (name : option string) : bool :=
  match name with
  | Some v => (50 <? py_len v)%nat
  | None => false
  end.

(** pydantic's [ValidationError], a [ValueError]. *)
Definition ValidationError : PyExc :=
  ValueError "validation error for UserResponse".

(** [UserResponse.model_validate(user)]: the fields inherited from
    [UserBase] are validated again, so the stored email must pass
    [EmailStr], whose normalised form is returned, and a stored name
    may have at most fifty characters. *)
Definition model_validate (id : Z) (u : User) : Result UserResponse :=
  match validate_email lib (email u) with
  | Some normalized =>
      if too_long (first_name u) || too_long (last_name u) then
        Raise ValidationError
      else
        Ok {| resp_id := id;
              resp_email := normalized;
              resp_first_name := first_name u;
              resp_last_name := last_name u;
              resp_role := role_value (role u);
              resp_is_verified := is_verified u;
              resp_created_at := created_at u;
              resp_updated_at := updated_at u |}
  | None => Raise ValidationError
  end.

(** [update_data.model_dump(exclude_unset=True)], in field order. *)
Definition model_dump_exclude_unset (d : UserUpdate)
  : list (string * option string) :=
  match upd_first_name d with Some v => [("first_name", v)] | None => [] end ++
  match upd_last_name d with Some v => [("last_name", v)] | None => [] end ++
  match upd_email d with Some v => [("email", v)] | None => [] end.

(** [setattr(user, field, value)] on a loaded object.  The flag records
    that [email] was set to [None] in memory, which the NOT NULL column
    refuses at the commit. *)
Definition setattr (obj : User * bool) (field : string)
    (value : option string) : User * bool :=
  let '(u, null_email) := obj in
  if String.eqb field "first_name" then
    ({| email := email u; hashed_password := hashed_password u;
        first_name := value; last_name := last_name u;
        role := role u; is_verified := is_verified u;
        verification_code := verification_code u;
        verification_code_expires_at := verification_code_expires_at u;
        created_at := created_at u; updated_at := updated_at u |},
     null_email)
  else if String.eqb field "last_name" then
    ({| email := email u; hashed_password := hashed_password u;
        first_name := first_name u; last_name := value;
        role := role u; is_verified := is_verified u;
        verification_code := verification_code u;
        verification_code_expires_at := verification_code_expires_at u;
        created_at := created_at u; updated_at := updated_at u |},
     null_email)
  else if String.eqb field "email" then
    match value with
    | Some e =>
        ({| email := e; hashed_password := hashed_password u;
            first_name := first_name u; last_name := last_name u;
            role := role u; is_verified := is_verified u;
            verification_code := verification_code u;
            verification_code_expires_at := verification_code_expires_at u;
            created_at := created_at u; updated_at := updated_at u |},
         false)
    | None => (u, true)
    end
  else obj.

(** [select(User).where(User.email == e, User.id != user_id)]; a null
    [e] matches no row. *)
Definition select_email_other (s : gmap Z User) (e : option string)
    (user_id : Z) : list (Z * User) :=
  match e with
  | Some e => filter (fun r => email r.2 = e ∧ r.1 ≠ user_id) (map_to_list s)
  | None => []
  end.

(** The [onupdate] default of [updated_at]. *)
Definition touch (u : User) (t_db : Z) : User :=
  {| email := email u; hashed_password := hashed_password u;
     first_name := first_name u; last_name := last_name u;
     role := role u; is_verified := is_verified u;
     verification_code := verification_code u;
     verification_code_expires_at := verification_code_expires_at u;
     created_at := created_at u; updated_at := Some (utc_now t_db) |}.

Definition update_user (s : gmap Z User) (user_id : Z)
    (update_data : UserUpdate) (t_db : Z)
  : gmap Z User * Result UserResponse :=
  match scalar_one_or_none (select_by_id s user_id) with
  | Raise e => (s, Raise e)
  | Ok None =>
      (s, Raise (HTTPException HTTP_404_NOT_FOUND
                   ("User with ID " +:+ py_str user_id +:+ " not found") []))
  | Ok (Some (id, user)) =>
      let update_dict := model_dump_exclude_unset update_data in
      match update_dict with
      | [] => (s, Raise (bad_request "No fields provided for update"))
      | _ =>
          let email_check :=
            match upd_email update_data with
            | Some e => scalar_one_or_none (select_email_other s e user_id)
            | None => Ok None
            end in
          match email_check with
          | Raise e => (s, Raise e)
          | Ok (Some _) => (s, Raise (bad_request "Email already in use"))
          | Ok None =>
              let '(user', null_email) :=
                foldl (fun obj fv => setattr obj fv.1 fv.2)
                  (user, false) update_dict in
              if null_email then
                (s, Raise (IntegrityError "null value in column email"))
              else if bool_decide (user' = user) then
                (s, model_validate id user)
              else
                let stored := touch user' t_db in
                (<[id := stored]> s, model_validate id stored)
          end
      end
  end.

(** *** app/tasks/cleanup.py *)

Record CleanupReport : Type := mkCleanupReport {
  deleted : Z;
  user_ids : list Z;
  emails : list string;
  cutoff_date : option datetime
}.

Record CleanupRun : Type := mkCleanupRun {
  run_store : gmap Z User;
  run_log : list Stmt;
  run_result : Result CleanupReport
}.

Definition zero_report : CleanupReport :=
  {| deleted := 0; user_ids := []; emails := []; cutoff_date := None |}.

(** The loop that builds [valid_deletions]. *)
Fixpoint valid_deletions (users : list (Z * User)) (cutoff_date : datetime)
  : Result (list (Z * User)) :=
  match users with
  | [] => Ok []
  | user :: rest =>
      let created := created_at user.2 in
      let created :=
        match tzinfo created with
        | None => replace_tzinfo_utc created
        | Some _ => created
        end in
      keep ← dt_lt created cutoff_date;
      tl ← valid_deletions rest cutoff_date;
      Ok (if keep : bool then user :: tl else tl)
  end.

(** The rows of [select(User).where(User.is_verified == False,
    User.created_at < cutoff_date)]. *)
Definition select_stale (s : gmap Z User) (cutoff_date : datetime)
  : list (Z * User) :=
  filter (fun r => is_verified r.2 = false
                   ∧ sql_lt (created_at r.2) cutoff_date = true)
    (map_to_list s).

(** [delete(User).where(User.id.in_(user_ids))] *)
Definition delete_ids (s : gmap Z User) (ids : list Z) : gmap Z User :=
  filter (fun r => r.1 ∉ ids) s.

Definition _cleanup_unverified (s : gmap Z User) (now : Z) : CleanupRun :=
  let cutoff_date :=
    dt_sub (utc_now now)
      (timedelta_days (UNVERIFIED_USER_DELETE_DAYS settings)) in
  let users_to_delete := select_stale s cutoff_date in
  match users_to_delete with
  | [] => {| run_store := s; run_log := [SelectStmt];
             run_result := Ok zero_report |}
  | _ =>
      match valid_deletions users_to_delete cutoff_date with
      | Raise e => {| run_store := s; run_log := [SelectStmt; RollbackStmt];
                      run_result := Raise e |}
      | Ok [] => {| run_store := s; run_log := [SelectStmt];
                    run_result := Ok zero_report |}
      | Ok valid =>
          let ids := map fst valid in
          let user_emails := map (fun r => email r.2) valid in
          {| run_store := delete_ids s ids;
             run_log := [SelectStmt; DeleteStmt ids; CommitStmt];
             run_result :=
               Ok {| deleted := Z.of_nat (length ids);
                     user_ids := ids;
                     emails := user_emails;
                     cutoff_date := Some cutoff_date |} |}
      end
  end.

End Service.

(** ** Predicates used by the statements *)

(** Claims that can be written as JSON: no datetime is left. *)
Definition json_serialisable (claims : gmap string PyVal) : Prop :=
  map_Forall (fun _ v => ∀ d, v ≠ PDatetime d) claims.

(** Verifying what was signed with the same key and algorithm gives the
    claims back. *)
Definition jws_sound (lib : Libs) (key alg : string) : Prop :=
  ∀ claims, json_serialisable claims →
    jws_verify lib (jws_sign lib claims key alg) key alg = inr claims.

(** The unique constraint of the [email] column. *)
Definition unique_emails (s : gmap Z User) : Prop :=
  ∀ i j u v, s !! i = Some u → s !! j = Some v → email u = email v → i = j.

Fixpoint all_digits (s : string) : bool :=
  match s with
  | EmptyString => true
  | String c r => is_digit c && all_digits r
  end.

(** The purge condition of the cleanup task at clock reading [now]. *)
Definition stale (settings : Settings) (now : Z) (u : User) : bool :=
  negb (is_verified u)
  && (sql_instant (created_at u)
      <? now - timedelta_days (UNVERIFIED_USER_DELETE_DAYS settings)).

(** The row [verify_email] writes on success. *)
Definition verified_row (u : User) (t_db : Z) : User :=
  {| email := email u; hashed_password := hashed_password u;
     first_name := first_name u; last_name := last_name u;
     role := role u; is_verified := true;
     verification_code := None; verification_code_expires_at := None;
     created_at := created_at u; updated_at := Some (utc_now t_db) |}.

(** The code has not expired at [now]: there is no expiry, or the clock
    has not passed it (a naive expiry read as UTC). *)
Definition not_expired (u : User) (now : Z) : Prop :=
  match verification_code_expires_at u with
  | Some e => now ≤ sql_instant e
  | None => True
  end.

(** The specification's success condition of [verifyCode]: unverified,
    a code hash stored, the clock strictly before the stored expiry, and
    a matching hash. *)
Definition spec_verify_ok (lib : Libs) (code : string) (u : User) (now : Z)
  : Prop :=
  is_verified u = false
  ∧ truthy_str (verification_code u) = true
  ∧ (∃ e, verification_code_expires_at u = Some e ∧ now < sql_instant e)
  ∧ verify_password lib code (default EmptyString (verification_code u)) = Ok true.

Definition is_Ok {A} (r : Result A) : Prop :=
  match r with
  | Ok _ => True
  | Raise _ => False
  end.

(** The claims inside an issued token, once the expiry is an integer
    date. *)
Definition access_claims (id exp : Z) : gmap string PyVal :=
  <["exp" := PInt exp]> (sub_claims id).

Definition refresh_claims (id exp : Z) : gmap string PyVal :=
  <["type" := PStr "refresh"]> (<["exp" := PInt exp]> (sub_claims id)).

(** The [exp] claim of a token made at clock reading [t]. *)
Definition access_exp (settings : Settings) (t : Z) : Z :=
  (t + timedelta_minutes (ACCESS_TOKEN_EXPIRE_MINUTES settings)) / 1000000.

Definition refresh_exp (settings : Settings) (t : Z) : Z :=
  (t + timedelta_days (REFRESH_TOKEN_EXPIRE_DAYS settings)) / 1000000.

(** ** A concrete instance of the primitives

    A stand-in for bcrypt and for the JWS serialisation on which the
    service can be run inside Rocq.  The signer writes the claims, the key
    and the algorithm as one decimal numeral; the verifier reads it back
    and compares key and algorithm. *)

#[export] Instance datetime_countable : Countable datetime.
Proof.
  refine (inj_countable' (fun d => (micros d, tzinfo d))
            (fun p => mkDatetime p.1 p.2) _).
  by intros [].
Defined.

#[export] Instance PyVal_countable : Countable PyVal.
Proof.
  refine (inj_countable'
    (fun v => match v with
              | PNone => inl ()
              | PBool b => inr (inl b)
              | PInt z => inr (inr (inl z))
              | PStr s => inr (inr (inr (inl s)))
              | PDatetime d => inr (inr (inr (inr d)))
              end)
    (fun x => match x with
              | inl _ => PNone
              | inr (inl b) => PBool b
              | inr (inr (inl z)) => PInt z
              | inr (inr (inr (inl s))) => PStr s
              | inr (inr (inr (inr d))) => PDatetime d
              end) _).
  by intros [].
Defined.

Definition demo_sign (claims : gmap string PyVal) (key alg : string) : string :=
  NilEmpty.string_of_uint (Pos.to_uint (encode (claims, key, alg))).

Definition demo_verify (token key alg : string) : string + gmap string PyVal :=
  match NilEmpty.uint_of_string token with
  | Some u =>
      match Pos.of_uint u with
      | Npos p =>
          match decode p with
          | Some (claims, k, a) =>
              if bool_decide (k = key ∧ a = alg) then inr claims
              else inl "Signature verification failed."
          | None => inl "Not enough segments"
          end
      | N0 => inl "Not enough segments"
      end
  | None => inl "Not enough segments"
  end.

Definition demo_bcrypt_hash (salt secret : string) : string :=
  "$2b$12$" +:+ salt +:+ "$" +:+ secret.

Definition demo_bcrypt_verify (secret hash : string) : Result bool :=
  Ok (existsb (fun salt => String.eqb hash (demo_bcrypt_hash salt secret))
        ["saltA"; "saltB"; "saltC"]).

(** One more than the largest key in use. *)
Definition demo_next_id (s : gmap Z User) : Z :=
  1 + foldr Z.max 0 (map fst (map_to_list s)).

(** Accepts, unchanged, a string with an [@] that is neither first nor
    last. *)
Definition demo_validate_email (s : string) : option string :=
  match index 1 "@" s with
  | Some n => if (S n <? String.length s)%nat then Some s else None
  | None => None
  end.

Definition demo_lib : Libs :=
  {| bcrypt_hash := demo_bcrypt_hash;
     bcrypt_verify := demo_bcrypt_verify;
     jws_sign := demo_sign;
     jws_verify := demo_verify;
     next_id := demo_next_id;
     validate_email := demo_validate_email |}.

Definition demo_settings : Settings := default_settings "demo-secret".

(** A user that signed up at [t] with password ["Passw0rd1"] and was sent
    the code ["123456"]. *)
Definition demo_user (mail : string) (t : Z) : User :=
  {| email := mail;
     hashed_password := demo_bcrypt_hash "saltA" "Passw0rd1";
     first_name := Some "John";
     last_name := Some "Doe";
     role := USER;
     is_verified := false;
     verification_code := Some (demo_bcrypt_hash "saltB" "123456");
     verification_code_expires_at :=
       Some (utc_now (t + timedelta_hours 24));
     created_at := utc_now t;
     updated_at := None |}.

(** The same user with the code hash kept but the expiry column null. *)
Definition demo_user_no_expiry (mail : string) (t : Z) : User :=
  {| email := mail;
     hashed_password := demo_bcrypt_hash "saltA" "Passw0rd1";
     first_name := Some "John";
     last_name := Some "Doe";
     role := USER;
     is_verified := false;
     verification_code := Some (demo_bcrypt_hash "saltB" "123456");
     verification_code_expires_at := None;
     created_at := utc_now t;
     updated_at := None |}.

(** An entropy source for the examples. *)
Definition demo_rng (i : nat) : Z := Z.of_nat i * 7 + 3.

(** The columns an admin update is not meant to reach. *)
Definition frame_fields (u : User)
  : string * UserRole * bool * option string * option datetime * datetime :=
  (hashed_password u, role u, is_verified u, verification_code u,
   verification_code_expires_at u, created_at u).

(** 2023-11-14T22:13:20Z in microseconds. *)
Definition T0 : Z := 1700000000000000.

(** An account of the cleanup script: created [age] microseconds before
    [now], verified or not, with no code. *)
Definition aged_user (mail : string) (now age : Z) (verified : bool) : User :=
  {| email := mail;
     hashed_password := demo_bcrypt_hash "saltA" "Test123";
     first_name := None;
     last_name := None;
     role := USER;
     is_verified := verified;
     verification_code := None;
     verification_code_expires_at := None;
     created_at := utc_now (now - age);
     updated_at := None |}.

Definition demo_store : gmap Z User :=
  {[ 1 := demo_user "test@example.com" T0 ]}.

(** The four accounts of the cleanup script, seen at [T0] plus forty
    days: three days old and unverified, twelve hours old and unverified,
    ten days old and verified, thirty days old and unverified. *)
Definition cleanup_store : gmap Z User :=
  let now := T0 + timedelta_days 40 in
  {[ 1 := aged_user "old_unverified@example.com" now (timedelta_days 3) false;
     2 := aged_user "recent_unverified@example.com" now (timedelta_hours 12)
            false;
     3 := aged_user "old_verified@example.com" now (timedelta_days 10) true;
     4 := aged_user "very_old_unverified@example.com" now (timedelta_days 30)
            false ]}.

(** ** The rest of the service

    The functions of the same modules that the statements above do not
    reach: the remaining dependencies, the code resend, the role change,
    the read and delete operations on users, the admin script and the
    routes that put a dependency in front of a service call. *)

Definition HTTP_403_FORBIDDEN : Z := 403.

Record ResendResponse : Type := mkResendResponse {
  resend_message : string;
  resend_expires_at : datetime
}.

Record DeleteResponse : Type := mkDeleteResponse {
  delete_message : string;
  deleted_user_id : Z
}.

(** *** app/core/dependencies.py *)

Definition get_current_verified_user (current_user : Z * User)
  : Result (Z * User) :=
  if negb (is_verified current_user.2) then
    Raise (HTTPException HTTP_403_FORBIDDEN
             "Email not verified. Please verify your email first." [])
  else Ok current_user.

Definition require_admin (current_user : Z * User) : Result (Z * User) :=
  if bool_decide (role current_user.2 ≠ ADMIN) then
    Raise (HTTPException HTTP_403_FORBIDDEN "Admin access required" [])
  else Ok current_user.

(** *** app/services/user_service.py *)

Definition user_not_found (user_id : Z) : PyExc :=
  HTTPException HTTP_404_NOT_FOUND
    ("User with ID " +:+ py_str user_id +:+ " not found") [].

(** [[UserResponse.model_validate(user) for user in users]]: the rows in
    turn, the first that fails validation raising. *)
Fixpoint validate_rows (lib : Libs) (users : list (Z * User))
  : Result (list UserResponse) :=
  match users with
  | [] => Ok []
  | user :: rest =>
      response ← model_validate lib user.1 user.2;
      responses ← validate_rows lib rest;
      Ok (response :: responses)
  end.

(** [get_all_users]: one response per row of [select(User)]. *)
Definition get_all_users (lib : Libs) (s : gmap Z User)
  : Result (list UserResponse) :=
  validate_rows lib (map_to_list s).

Definition get_user_by_id (lib : Libs) (s : gmap Z User) (user_id : Z)
  : Result UserResponse :=
  user ← scalar_one_or_none (select_by_id s user_id);
  match user with
  | None => Raise (user_not_found user_id)
  | Some (id, u) => model_validate lib id u
  end.

Definition delete_user (s : gmap Z User) (user_id : Z)
  : gmap Z User * Result DeleteResponse :=
  match scalar_one_or_none (select_by_id s user_id) with
  | Raise e => (s, Raise e)
  | Ok None => (s, Raise (user_not_found user_id))
  | Ok (Some (id, user)) =>
      let user_email := email user in
      (delete id s,
       Ok {| delete_message :=
               "User " +:+ user_email +:+ " deleted successfully";
             deleted_user_id := user_id |})
  end.

(** *** app/services/auth_service.py, continued *)

(** [update_user_role]: the row is written, and [updated_at] stamped,
    only when the role really changes. *)
Definition update_user_role (s : gmap Z User) (user_id : Z)
    (new_role : UserRole) (t_db : Z) : gmap Z User * Result (Z * User) :=
  match scalar_one_or_none (select_by_id s user_id) with
  | Raise e => (s, Raise e)
  | Ok None => (s, Raise (user_not_found user_id))
  | Ok (Some (id, user)) =>
      let user' :=
        {| email := email user; hashed_password := hashed_password user;
           first_name := first_name user; last_name := last_name user;
           role := new_role; is_verified := is_verified user;
           verification_code := verification_code user;
           verification_code_expires_at := verification_code_expires_at user;
           created_at := created_at user; updated_at := updated_at user |} in
      if bool_decide (user' = user) then (s, Ok (id, user))
      else
        let stored := touch user' t_db in
        (<[id := stored]> s, Ok (id, stored))
  end.

Section ServiceRest.

Variable lib : Libs.
Variable settings : Settings.

(** [resend_verification_code] on the row [user] loaded under key [id];
    the response carries the new expiry. *)
Definition resend_verification_code (s : gmap Z User) (id : Z) (user : User)
    (rng : nat -> Z) (salt_code : string) (t_exp t_db : Z)
  : gmap Z User * Result ResendResponse :=
  if is_verified user then (s, Raise AlreadyVerified)
  else
    let verification_code := gen_verification_code rng in
    let expires_at :=
      dt_add (utc_now t_exp)
        (timedelta_hours (VERIFICATION_CODE_EXPIRE_HOURS settings)) in
    let user' :=
      {| email := email user; hashed_password := hashed_password user;
         first_name := first_name user; last_name := last_name user;
         role := role user; is_verified := is_verified user;
         verification_code :=
           Some (hash_password lib salt_code verification_code);
         verification_code_expires_at := Some expires_at;
         created_at := created_at user; updated_at := updated_at user |} in
    let response :=
      {| resend_message := "New verification code sent";
         resend_expires_at := expires_at |} in
    if bool_decide (user' = user) then (s, Ok response)
    else (<[id := touch user' t_db]> s, Ok response).

(** *** create_admin.py *)


Definition create_admin_user (s : gmap Z User) (email_ password : string)
    (salt : string) (t_db : Z) : gmap Z User * Result bool :=
  match scalar_one_or_none (select_by_email s email_) with
  | Raise e => (s, Raise e)
  | Ok (Some (id, existing_user)) =>
      if bool_decide (role existing_user = ADMIN) then (s, Ok true)
      else
        let promoted :=
          {| email := email existing_user;
             hashed_password := hashed_password existing_user;
             first_name := first_name existing_user;
             last_name := last_name existing_user;
             role := ADMIN; is_verified := true;
             verification_code := verification_code existing_user;
             verification_code_expires_at :=
               verification_code_expires_at existing_user;
             created_at := created_at existing_user;
             updated_at := updated_at existing_user |} in
        (<[id := touch promoted t_db]> s, Ok true)
  | Ok None =>
      let admin_user :=
        {| email := email_;
           hashed_password := hash_password lib salt password;
           first_name := Some "Admin";
           last_name := Some "User";
           role := ADMIN;
           is_verified := true;
           verification_code := None;
           verification_code_expires_at := None;
           created_at := utc_now t_db;
           updated_at := None |} in
      (<[next_id lib s := admin_user]> s, Ok true)
  end.


(** *** app/api/auth.py and app/api/users.py

    A route runs its dependencies first and calls the service only when
    they return. *)


Definition route_resend_verification (s : gmap Z User) (token : string)
    (rng : nat -> Z) (salt_code : string) (t_auth t_exp t_db : Z)
  : gmap Z User * Result ResendResponse :=
  match get_current_user lib settings s token t_auth with
  | Raise e => (s, Raise e)
  | Ok (id, current_user) =>
      resend_verification_code s id current_user rng salt_code t_exp t_db
  end.


(** The [require_admin] dependency of the user routes. *)
Definition admin_dependency (s : gmap Z User) (token : string) (t_auth : Z)
  : Result (Z * User) :=
  current_user ← get_current_user lib settings s token t_auth;
  require_admin current_user.

Definition route_list_all_users (s : gmap Z User) (token : string)
    (t_auth : Z) : Result (list UserResponse) :=
  _ ← admin_dependency s token t_auth;
  get_all_users lib s.

Definition route_get_user (s : gmap Z User) (token : string) (user_id : Z)
    (t_auth : Z) : Result UserResponse :=
  _ ← admin_dependency s token t_auth;
  get_user_by_id lib s user_id.

Definition route_update_user (s : gmap Z User) (token : string) (user_id : Z)
    (update_data : UserUpdate) (t_auth t_db : Z)
  : gmap Z User * Result UserResponse :=
  match admin_dependency s token t_auth with
  | Raise e => (s, Raise e)
  | Ok _ => update_user lib s user_id update_data t_db
  end.

Definition route_delete_user (s : gmap Z User) (token : string) (user_id : Z)
    (t_auth : Z) : gmap Z User * Result DeleteResponse :=
  match admin_dependency s token t_auth with
  | Raise e => (s, Raise e)
  | Ok _ => delete_user s user_id
  end.

End ServiceRest.








(** The row [register_user] inserts. *)
Definition registered_row (lib : Libs) (settings : Settings)
    (request : SignupRequest) (rng : nat -> Z) (salt_pw salt_code : string)
    (t_exp t_db : Z) : User :=
  {| email := signup_email request;
     hashed_password := bcrypt_hash lib salt_pw (signup_password request);
     first_name := signup_first_name request;
     last_name := signup_last_name request;
     role := USER;
     is_verified := false;
     verification_code :=
       Some (bcrypt_hash lib salt_code (gen_verification_code rng));
     verification_code_expires_at :=
       Some (dt_add (utc_now t_exp)
               (timedelta_hours (VERIFICATION_CODE_EXPIRE_HOURS settings)));
     created_at := utc_now t_db;
     updated_at := None |}.

(** The columns a code resend leaves alone. *)
Definition resend_frame (u : User)
  : string * string * option string * option string * UserRole * bool
    * datetime :=
  (email u, hashed_password u, first_name u, last_name u, role u,
   is_verified u, created_at u).

(** The columns a role change leaves alone. *)
Definition role_frame (u : User)
  : string * string * option string * option string * bool * option string
    * option datetime * datetime :=
  (email u, hashed_password u, first_name u, last_name u, is_verified u,
   verification_code u, verification_code_expires_at u, created_at u).

(** The target row with the given fields of a [UserUpdate] written in; a
    null email is not written. *)
Definition patched (u : User) (d : UserUpdate) : User :=
  {| email := match upd_email d with Some (Some e) => e | _ => email u end;
     hashed_password := hashed_password u;
     first_name :=
       match upd_first_name d with Some v => v | None => first_name u end;
     last_name :=
       match upd_last_name d with Some v => v | None => last_name u end;
     role := role u; is_verified := is_verified u;
     verification_code := verification_code u;
     verification_code_expires_at := verification_code_expires_at u;
     created_at := created_at u; updated_at := updated_at u |}.

(** * Properties *)

(** ** [str] and [int] on integers *)

Lemma digit_not_space c : is_digit c = true → is_space c = false.
Proof.
  destruct c as [[] [] [] [] [] [] [] []]; (reflexivity || discriminate).
Qed.

Lemma digit_not_underscore c : is_digit c = true → Ascii.eqb c "_" = false.
Proof.
  destruct c as [[] [] [] [] [] [] [] []]; (reflexivity || discriminate).
Qed.

Lemma string_of_uint_digits d : all_digits (NilEmpty.string_of_uint d) = true.
Proof. induction d; simpl; auto. Qed.

Lemma rstrip_digits s : all_digits s = true → rstrip s = s.
Proof.
  induction s as [|c r IH]; simpl; [done|].
  intros [Hc Hr]%andb_true_iff. rewrite (IH Hr).
  destruct r; [|done]. by rewrite (digit_not_space c Hc).
Qed.

Lemma drop_underscores_digits s :
  all_digits s = true → drop_underscores true s = Some s.
Proof.
  induction s as [|c r IH]; simpl; [done|].
  intros [Hc Hr]%andb_true_iff.
  by rewrite (digit_not_underscore c Hc), Hc, (IH Hr).
Qed.

Lemma string_of_uint_nonempty d :
  d ≠ Decimal.Nil →
  ∃ c r, NilEmpty.string_of_uint d = String c r ∧ is_digit c = true.
Proof. destruct d; [done|..]; intros _; simpl; eauto. Qed.

Lemma lstrip_nonspace c r : is_space c = false → lstrip (String c r) = String c r.
Proof. intros H. simpl. by rewrite H. Qed.

Lemma rstrip_cons_digits c ds :
  is_space c = false → all_digits ds = true → rstrip (String c ds) = String c ds.
Proof.
  intros Hc Hall. simpl. rewrite (rstrip_digits ds Hall).
  destruct ds; [by rewrite Hc|done].
Qed.

Lemma py_int_of_str_digits ds c r u :
  ds = String c r → all_digits ds = true →
  NilZero.uint_of_string ds = Some u →
  py_int_of_str ds = Some (Z.of_uint u)
  ∧ py_int_of_str (String "-" ds) = Some (- Z.of_uint u).
Proof.
  intros Heq Hall Hu.
  assert (is_digit c = true) as Hc.
  { rewrite Heq in Hall. simpl in Hall. by apply andb_true_iff in Hall as []. }
  assert (Ascii.eqb c "-" = false ∧ Ascii.eqb c "+" = false) as [Hm Hp].
  { clear -Hc. destruct c as [[] [] [] [] [] [] [] []];
      (done || discriminate). }
  split; unfold py_int_of_str.
  - rewrite Heq, (lstrip_nonspace c r (digit_not_space c Hc)), <- Heq.
    rewrite (rstrip_digits ds Hall), Heq, Hm, Hp, Hc, <- Heq.
    rewrite (drop_underscores_digits ds Hall). simpl. by rewrite Hu.
  - rewrite (lstrip_nonspace "-" ds eq_refl).
    rewrite (rstrip_cons_digits "-" ds eq_refl Hall).
    change (Ascii.eqb "-" "-") with true. cbv iota.
    rewrite Heq, Hc, <- Heq.
    rewrite (drop_underscores_digits ds Hall). simpl. by rewrite Hu.
Qed.

Lemma py_int_of_digits d :
  d ≠ Decimal.Nil →
  py_int_of_str (NilEmpty.string_of_uint d) = Some (Z.of_uint d)
  ∧ py_int_of_str (String "-" (NilEmpty.string_of_uint d))
    = Some (- Z.of_uint d).
Proof.
  intros Hd.
  destruct (string_of_uint_nonempty d Hd) as (c & r & Heq & Hc).
  apply (py_int_of_str_digits _ c r); [done|apply string_of_uint_digits|].
  rewrite Heq. unfold NilZero.uint_of_string. rewrite <- Heq.
  apply NilEmpty.usu.
Qed.

(** [int(str(z))] is [z]. *)
Lemma py_int_str z : py_int (PStr (py_str z)) = Ok z.
Proof.
  unfold py_int, py_str.
  pose proof (DecimalZ.of_to z) as Hz.
  destruct z as [|p|p]; [reflexivity|..]; simpl in Hz |- *;
    pose proof (DecimalPos.Unsigned.to_uint_nonnil p) as Hnil;
    destruct (py_int_of_digits (Pos.to_uint p) Hnil) as [Hpos Hneg];
    unfold NilZero.string_of_uint;
    destruct (Pos.to_uint p) eqn:E; try done;
    rewrite ?Hpos, ?Hneg; by rewrite Hz.
Qed.

(** ** The concrete signer is sound *)

Lemma demo_sound key alg : jws_sound demo_lib key alg.
Proof.
  intros claims _. simpl. unfold demo_verify, demo_sign.
  rewrite NilEmpty.usu, DecimalPos.Unsigned.of_to, decode_encode.
  by rewrite bool_decide_eq_true_2.
Qed.

(** ** Issued tokens *)

Lemma payload_get_Some (p : gmap string PyVal) k v :
  p !! k = Some v → payload_get p k = v.
Proof. intros H. unfold payload_get. by rewrite H. Qed.

Lemma payload_get_None (p : gmap string PyVal) k :
  p !! k = None → payload_get p k = PNone.
Proof. intros H. unfold payload_get. by rewrite H. Qed.

Lemma timegm_utc_now t : timegm_utc (utc_now t) = t / 1000000.
Proof. unfold timegm_utc, sql_instant. simpl. f_equal. lia. Qed.

Lemma create_access_token_eq lib settings id t :
  create_access_token lib settings (sub_claims id) None t
  = jws_sign lib (access_claims id (access_exp settings t))
      (SECRET_KEY settings) (ALGORITHM settings).
Proof.
  unfold create_access_token, jwt_encode, intdate_claims, access_claims,
    access_exp, sub_claims. f_equal. simpl.
  repeat (rewrite lookup_insert_ne by done;
          rewrite lookup_singleton_ne by done).
  rewrite lookup_insert_eq, insert_insert_eq.
  by rewrite <- timegm_utc_now.
Qed.

Lemma create_refresh_token_eq lib settings id t :
  create_refresh_token lib settings (sub_claims id) t
  = jws_sign lib (refresh_claims id (refresh_exp settings t))
      (SECRET_KEY settings) (ALGORITHM settings).
Proof.
  unfold create_refresh_token, jwt_encode, intdate_claims, refresh_claims,
    refresh_exp, sub_claims. f_equal. simpl.
  repeat (rewrite !lookup_insert_ne by done;
          rewrite lookup_singleton_ne by done).
  rewrite lookup_insert_ne by done. rewrite lookup_insert_eq.
  rewrite (insert_insert_ne _ "exp" "type") by done.
  rewrite insert_insert_eq.
  by rewrite <- timegm_utc_now.
Qed.

Lemma access_claims_serialisable id exp : json_serialisable (access_claims id exp).
Proof.
  unfold json_serialisable, access_claims, sub_claims.
  apply map_Forall_insert_2; [done|].
  by apply map_Forall_singleton.
Qed.

Lemma refresh_claims_serialisable id exp :
  json_serialisable (refresh_claims id exp).
Proof.
  unfold json_serialisable, refresh_claims, sub_claims.
  do 2 (apply map_Forall_insert_2; [done|]).
  by apply map_Forall_singleton.
Qed.

Lemma access_claims_lookup id exp :
  access_claims id exp !! "exp" = Some (PInt exp)
  ∧ access_claims id exp !! "sub" = Some (PStr (py_str id))
  ∧ access_claims id exp !! "type" = None.
Proof. unfold access_claims, sub_claims. by simplify_map_eq. Qed.

Lemma refresh_claims_lookup id exp :
  refresh_claims id exp !! "exp" = Some (PInt exp)
  ∧ refresh_claims id exp !! "sub" = Some (PStr (py_str id))
  ∧ refresh_claims id exp !! "type" = Some (PStr "refresh").
Proof. unfold refresh_claims, sub_claims. by simplify_map_eq. Qed.

(** Decoding a token signed with the service's key: accepted while the
    current second is not past [exp], refused afterwards. *)
Lemma decode_signed lib settings claims exp sub now :
  jws_sound lib (SECRET_KEY settings) (ALGORITHM settings) →
  json_serialisable claims →
  claims !! "exp" = Some (PInt exp) →
  claims !! "sub" = Some (PStr sub) →
  decode_token lib settings
    (jws_sign lib claims (SECRET_KEY settings) (ALGORITHM settings)) now
  = if exp <? now / 1000000 then Raise (JWTError "Token has expired")
    else Ok claims.
Proof.
  intros Hsound Hser Hexp Hsub.
  unfold decode_token, jwt_decode. rewrite (Hsound claims Hser).
  unfold validate_exp, validate_sub. rewrite Hexp, Hsub. simpl.
  rewrite timegm_utc_now. by destruct (exp <? now / 1000000).
Qed.

Lemma div_le_window t_dec t delta :
  t_dec ≤ t + delta → ((t + delta) / 1000000 <? t_dec / 1000000) = false.
Proof.
  intros H. apply Z.ltb_ge. by apply Z.div_le_mono.
Qed.

(** C8. Token round trip: for every subject id, a freshly issued access
    token decodes, while its lifetime has not elapsed, to a payload whose
    subject is that id; a freshly issued refresh token decodes to a
    payload whose subject is that id and whose kind marker is
    ["refresh"]. *)
Theorem token_round_trip lib settings id t_issue t_decode :
  jws_sound lib (SECRET_KEY settings) (ALGORITHM settings) →
  (t_decode
     ≤ t_issue + timedelta_minutes (ACCESS_TOKEN_EXPIRE_MINUTES settings) →
   ∃ payload,
     decode_token lib settings
       (create_access_token lib settings (sub_claims id) None t_issue)
       t_decode = Ok payload
     ∧ payload !! "sub" = Some (PStr (py_str id))
     ∧ py_int (payload_get payload "sub") = Ok id)
  ∧ (t_decode
       ≤ t_issue + timedelta_days (REFRESH_TOKEN_EXPIRE_DAYS settings) →
     ∃ payload,
       decode_token lib settings
         (create_refresh_token lib settings (sub_claims id) t_issue)
         t_decode = Ok payload
       ∧ payload !! "sub" = Some (PStr (py_str id))
       ∧ py_int (payload_get payload "sub") = Ok id
       ∧ payload_get payload "type" = PStr "refresh").
Proof.
  intros Hsound. split; intros Hwin.
  - destruct (access_claims_lookup id (access_exp settings t_issue))
      as (Hexp & Hsub & _).
    rewrite create_access_token_eq.
    rewrite (decode_signed _ _ _ _ _ _ Hsound
               (access_claims_serialisable _ _) Hexp Hsub).
    unfold access_exp in *. rewrite (div_le_window _ _ _ Hwin).
    eexists. split; [done|]. split; [done|].
    unfold payload_get. rewrite Hsub. apply py_int_str.
  - destruct (refresh_claims_lookup id (refresh_exp settings t_issue))
      as (Hexp & Hsub & Htype).
    rewrite create_refresh_token_eq.
    rewrite (decode_signed _ _ _ _ _ _ Hsound
               (refresh_claims_serialisable _ _) Hexp Hsub).
    unfold refresh_exp in *. rewrite (div_le_window _ _ _ Hwin).
    eexists. split; [done|]. split; [done|].
    unfold payload_get. rewrite Hsub, Htype. split; [apply py_int_str|done].
Qed.

Lemma token_round_trip_witness :
  (∃ payload,
     decode_token demo_lib demo_settings
       (create_access_token demo_lib demo_settings (sub_claims 7) None T0)
       (T0 + 1000000) = Ok payload
     ∧ payload !! "sub" = Some (PStr (py_str 7))
     ∧ py_int (payload_get payload "sub") = Ok 7)
  ∧ (∃ payload,
       decode_token demo_lib demo_settings
         (create_refresh_token demo_lib demo_settings (sub_claims 7) T0)
         (T0 + 1000000) = Ok payload
       ∧ payload !! "sub" = Some (PStr (py_str 7))
       ∧ py_int (payload_get payload "sub") = Ok 7
       ∧ payload_get payload "type" = PStr "refresh").
Proof.
  destruct (token_round_trip demo_lib demo_settings 7 T0 (T0 + 1000000)
              (demo_sound _ _)) as [Ha Hr].
  split; [apply Ha | apply Hr]; vm_compute; discriminate.
Defined.

(** ** Token kinds at the two checks *)

Lemma select_by_id_Some (s : gmap Z User) id u :
  s !! id = Some u → select_by_id s id = [(id, u)].
Proof. intros H. unfold select_by_id. by rewrite H. Qed.

(** The bearer check never looks at the kind marker: a refresh token that
    has not expired authenticates its subject. *)
Lemma get_current_user_ignores_kind lib settings (s : gmap Z User) id u t_issue now :
  jws_sound lib (SECRET_KEY settings) (ALGORITHM settings) →
  now ≤ t_issue + timedelta_days (REFRESH_TOKEN_EXPIRE_DAYS settings) →
  s !! id = Some u →
  get_current_user lib settings s
    (create_refresh_token lib settings (sub_claims id) t_issue) now
  = Ok (id, u).
Proof.
  intros Hsound Hwin Hu.
  destruct (refresh_claims_lookup id (refresh_exp settings t_issue))
    as (Hexp & Hsub & Htype).
  unfold get_current_user. rewrite create_refresh_token_eq.
  rewrite (decode_signed _ _ _ _ _ _ Hsound
             (refresh_claims_serialisable _ _) Hexp Hsub).
  unfold refresh_exp in *. rewrite (div_le_window _ _ _ Hwin).
  cbn [mbind result_bind try_except].
  rewrite (payload_get_Some _ _ _ Hsub), py_int_str.
  cbn [mbind result_bind try_except].
  by rewrite (select_by_id_Some s id u Hu).
Qed.

(** The refresh operation checks the marker: an access token is refused
    with 401, whether it has expired or not. *)
Lemma refresh_rejects_access_token lib settings (s : gmap Z User) id t_issue
    t_decode t_access t_refresh :
  jws_sound lib (SECRET_KEY settings) (ALGORITHM settings) →
  ∃ detail,
    refresh_access_token lib settings s
      (create_access_token lib settings (sub_claims id) None t_issue)
      t_decode t_access t_refresh
    = Raise (unauthorized detail).
Proof.
  intros Hsound.
  destruct (access_claims_lookup id (access_exp settings t_issue))
    as (Hexp & Hsub & Htype).
  unfold refresh_access_token. rewrite create_access_token_eq.
  rewrite (decode_signed _ _ _ _ _ _ Hsound
             (access_claims_serialisable _ _) Hexp Hsub).
  destruct (access_exp settings t_issue <? t_decode / 1000000);
    cbn [mbind result_bind try_except is_HTTPException].
  - by eexists.
  - rewrite (payload_get_None _ _ Htype).
    rewrite bool_decide_eq_true_2 by done.
    cbn [mbind result_bind try_except is_HTTPException unauthorized].
    by eexists.
Qed.

(** C1. Token-kind separation fails in one direction: a refresh token
    issued for user 1 and presented as a bearer credential one second
    later is accepted by the access-token check, which returns the
    user. *)
Theorem refresh_token_passes_bearer_check :
  get_current_user demo_lib demo_settings demo_store
    (create_refresh_token demo_lib demo_settings (sub_claims 1) T0)
    (T0 + 1000000)
  = Ok (1, demo_user "test@example.com" T0).
Proof. vm_compute. reflexivity. Qed.

(** ** Refresh and rotation *)

Lemma decode_token_Ok_inv lib settings token now payload :
  decode_token lib settings token now = Ok payload →
  jws_verify lib token (SECRET_KEY settings) (ALGORITHM settings) = inr payload.
Proof.
  unfold decode_token, jwt_decode.
  destruct (jws_verify lib token _ _) as [m|claims]; [done|].
  destruct (validate_exp claims now) as [[]|]; try done.
  destruct (validate_sub claims) as [[]|]; try done.
  by intros [= ->].
Qed.

Lemma refresh_success_inv lib settings (s : gmap Z User) token
    t_decode t_access t_refresh resp :
  refresh_access_token lib settings s token t_decode t_access t_refresh
  = Ok resp →
  ∃ payload id u,
    decode_token lib settings token t_decode = Ok payload
    ∧ payload_get payload "type" = PStr "refresh"
    ∧ py_int (payload_get payload "sub") = Ok id
    ∧ s !! id = Some u
    ∧ resp = token_pair lib settings id t_access t_refresh.
Proof.
  unfold refresh_access_token.
  destruct (decode_token lib settings token t_decode) as [payload|e] eqn:Hdec;
    cbn [mbind result_bind try_except]; [|by destruct (is_HTTPException e)].
  case_bool_decide as Htype; [done|].
  destruct (py_int (payload_get payload "sub")) as [id|e] eqn:Hint.
  - assert (payload_get payload "sub" ≠ PNone) as Hsub
      by (intros E; rewrite E in Hint; done).
    destruct (payload_get payload "sub") eqn:Hget; [done|..];
      cbn [mbind result_bind try_except];
      unfold select_by_id;
      (destruct (s !! id) as [u|] eqn:Hu;
       cbn [mbind result_bind scalar_one_or_none]; [|done];
       intros [= <-]; exists payload, id, u; by rewrite ?Hget).
  - destruct (payload_get payload "sub"); [done|..];
      cbn [mbind result_bind try_except];
      destruct e; done.
Qed.

Lemma sign_injective lib key alg c1 c2 :
  jws_sound lib key alg → json_serialisable c1 → json_serialisable c2 →
  jws_sign lib c1 key alg = jws_sign lib c2 key alg → c1 = c2.
Proof.
  intros Hs H1 H2 Heq.
  pose proof (Hs c1 H1) as E1. rewrite Heq, (Hs c2 H2) in E1.
  by injection E1.
Qed.

Lemma refresh_exp_same_second settings t1 t2 :
  refresh_exp settings t1 = refresh_exp settings t2
  ↔ t1 / 1000000 = t2 / 1000000.
Proof.
  unfold refresh_exp, timedelta_days.
  replace (REFRESH_TOKEN_EXPIRE_DAYS settings * 86400000000)
    with (REFRESH_TOKEN_EXPIRE_DAYS settings * 86400 * 1000000) by lia.
  rewrite !Z.div_add by lia. lia.
Qed.

(** C3 fails as stated: a refresh token issued at [T0 + 0.2s] and
    submitted at [T0 + 0.9s] is answered with that same refresh token, and
    a second call in the same second returns the same pair again. *)
Lemma refresh_returns_submitted_token :
  let submitted :=
    create_refresh_token demo_lib demo_settings (sub_claims 1) (T0 + 200000) in
  ∃ resp,
    refresh_access_token demo_lib demo_settings demo_store submitted
      (T0 + 900000) (T0 + 900000) (T0 + 900000) = Ok resp
    ∧ refresh_token resp = submitted
    ∧ refresh_access_token demo_lib demo_settings demo_store
        (refresh_token resp) (T0 + 950000) (T0 + 950000) (T0 + 950000)
      = Ok resp.
Proof.
  exists (token_pair demo_lib demo_settings 1 (T0 + 900000) (T0 + 900000)).
  repeat split; vm_compute; reflexivity.
Qed.

(** C3, amended. For every successful refresh call the returned access
    token differs from the submitted token.  For a submitted refresh token
    that the service issued at [t_issue], the returned refresh token
    differs from it when it is made in another clock second, and is the
    very same string when it is made within the same second: the expiry
    claim has one-second resolution and nothing else in the payload
    varies. *)
Theorem refresh_rotation lib settings (s : gmap Z User) :
  jws_sound lib (SECRET_KEY settings) (ALGORITHM settings) →
  (∀ token t_decode t_access t_refresh resp,
     refresh_access_token lib settings s token t_decode t_access t_refresh
     = Ok resp →
     access_token resp ≠ token)
  ∧ (∀ id t_issue t_decode t_access t_refresh resp,
       refresh_access_token lib settings s
         (create_refresh_token lib settings (sub_claims id) t_issue)
         t_decode t_access t_refresh = Ok resp →
       (t_issue / 1000000 ≠ t_refresh / 1000000 →
        refresh_token resp
        ≠ create_refresh_token lib settings (sub_claims id) t_issue)
       ∧ (t_issue / 1000000 = t_refresh / 1000000 →
          refresh_token resp
          = create_refresh_token lib settings (sub_claims id) t_issue)).
Proof.
  intros Hsound. split.
  - intros token t_decode t_access t_refresh resp Hok.
    destruct (refresh_success_inv _ _ _ _ _ _ _ _ Hok)
      as (payload & id & u & Hdec & Htype & _ & _ & ->).
    apply decode_token_Ok_inv in Hdec.
    simpl. rewrite create_access_token_eq. intros <-.
    rewrite (Hsound _ (access_claims_serialisable _ _)) in Hdec.
    injection Hdec as <-.
    destruct (access_claims_lookup id (access_exp settings t_access))
      as (_ & _ & Hnone).
    by rewrite (payload_get_None _ _ Hnone) in Htype.
  - intros id t_issue t_decode t_access t_refresh resp Hok.
    destruct (refresh_success_inv _ _ _ _ _ _ _ _ Hok)
      as (payload & id' & u & Hdec & _ & Hint & _ & ->).
    apply decode_token_Ok_inv in Hdec.
    rewrite create_refresh_token_eq in Hdec.
    rewrite (Hsound _ (refresh_claims_serialisable _ _)) in Hdec.
    injection Hdec as <-.
    destruct (refresh_claims_lookup id (refresh_exp settings t_issue))
      as (_ & Hsub & _).
    rewrite (payload_get_Some _ _ _ Hsub), py_int_str in Hint.
    injection Hint as <-.
    simpl. rewrite !create_refresh_token_eq. split.
    + intros Hne Heq.
      apply (sign_injective _ _ _ _ _ Hsound
               (refresh_claims_serialisable _ _)
               (refresh_claims_serialisable _ _)) in Heq.
      destruct (refresh_claims_lookup id (refresh_exp settings t_issue))
        as (E1 & _).
      destruct (refresh_claims_lookup id (refresh_exp settings t_refresh))
        as (E2 & _).
      rewrite Heq, E1 in E2. injection E2 as E2.
      apply refresh_exp_same_second in E2. done.
    + intros Heq.
      by rewrite (proj2 (refresh_exp_same_second settings _ _) Heq).
Qed.

Lemma refresh_rotation_witness :
  let submitted :=
    create_refresh_token demo_lib demo_settings (sub_claims 1) T0 in
  let resp :=
    token_pair demo_lib demo_settings 1 (T0 + 2000000) (T0 + 2000000) in
  refresh_access_token demo_lib demo_settings demo_store submitted
    (T0 + 2000000) (T0 + 2000000) (T0 + 2000000) = Ok resp
  ∧ access_token resp ≠ submitted
  ∧ refresh_token resp ≠ submitted.
Proof.
  intros submitted resp.
  assert (refresh_access_token demo_lib demo_settings demo_store submitted
            (T0 + 2000000) (T0 + 2000000) (T0 + 2000000) = Ok resp) as Hok
    by (vm_compute; reflexivity).
  destruct (refresh_rotation demo_lib demo_settings demo_store
              (demo_sound _ _)) as [Ha Hr].
  split; [exact Hok|]. split.
  - exact (Ha submitted (T0 + 2000000) (T0 + 2000000) (T0 + 2000000) resp Hok).
  - apply (Hr 1 T0 (T0 + 2000000) (T0 + 2000000) (T0 + 2000000) resp Hok).
    vm_compute. discriminate.
Defined.

(** ** Email verification *)

Lemma code_expired_eq e now : code_expired e now = Ok (sql_instant e <? now).
Proof.
  unfold code_expired, dt_lt, sql_instant.
  destruct e as [m [o|]]; simpl; by rewrite !Z.sub_0_r.
Qed.

Lemma truthy_str_Some o :
  truthy_str o = true → ∃ c r, o = Some (String c r).
Proof. destruct o as [[|c r]|]; try done. eauto. Qed.

(** C2 fails as stated: at the very instant of the stored expiry the clock
    is not strictly before it, yet [verify_email] accepts the right
    code. *)
Lemma verify_email_at_expiry_instant :
  let u := demo_user "test@example.com" T0 in
  let now := T0 + timedelta_hours 24 in
  is_Ok (verify_email demo_lib demo_store "123456" 1 u now now).2
  ∧ ¬ spec_verify_ok demo_lib "123456" u now.
Proof.
  split; [vm_compute; exact I|].
  intros (_ & _ & (e & He & Hlt) & _).
  injection He as <-. vm_compute in Hlt. discriminate.
Qed.

(** C2, amended. [verify_email] succeeds if and only if the account is
    not verified, a non-empty code hash is stored, the stored expiry is
    absent or the clock has not passed it (a naive expiry read as UTC;
    the expiry instant itself is still accepted), and the submitted code
    verifies against the stored hash.  On success the row is rewritten
    with [is_verified] true and both code fields cleared; on failure the
    table is untouched.  The errors come in the order AlreadyVerified,
    NoCodeIssued, CodeExpired, InvalidCode. *)
Theorem verify_email_cases lib (s : gmap Z User) code id u now t_db :
  let out := verify_email lib s code id u now t_db in
  let stored := truthy_str (verification_code u) in
  let check := verify_password lib code (default EmptyString (verification_code u)) in
  (is_Ok out.2 ↔
     is_verified u = false ∧ stored = true ∧ not_expired u now
     ∧ check = Ok true)
  ∧ (is_Ok out.2 →
     out.1 = <[id := verified_row u t_db]> s
     ∧ is_verified (verified_row u t_db) = true
     ∧ verification_code (verified_row u t_db) = None
     ∧ verification_code_expires_at (verified_row u t_db) = None)
  ∧ (¬ is_Ok out.2 → out.1 = s)
  ∧ (is_verified u = true → out.2 = Raise AlreadyVerified)
  ∧ (is_verified u = false → stored = false → out.2 = Raise NoCodeIssued)
  ∧ (is_verified u = false → stored = true → ¬ not_expired u now →
     out.2 = Raise CodeExpired)
  ∧ (is_verified u = false → stored = true → not_expired u now →
     check = Ok false → out.2 = Raise InvalidCode).
Proof.
  unfold verify_email, not_expired.
  destruct (is_verified u) eqn:Hv; cbn zeta.
  { simpl. repeat split; try done; by intros []. }
  destruct (truthy_str (verification_code u)) eqn:Hc; cbn [negb].
  2:{ simpl. repeat split; try done; by intros (_ & ? & _). }
  assert (∃ b, match verification_code_expires_at u with
               | Some expires_at => code_expired expires_at now
               | None => Ok false
               end = Ok b
               ∧ (b = false ↔ match verification_code_expires_at u with
                              | Some e => now ≤ sql_instant e
                              | None => True
                              end)) as (b & -> & Hb).
  { destruct (verification_code_expires_at u) as [e|].
    - rewrite code_expired_eq. eexists. split; [done|].
      rewrite Z.ltb_ge. done.
    - by exists false. }
  destruct b.
  { simpl. repeat split; try done.
    - intros (_ & _ & Hne & _). apply Hb in Hne. done.
    - intros _ _ Hne. apply Hb in Hne. done. }
  pose proof (proj1 Hb eq_refl) as Hne.
  destruct (verify_password lib code (default EmptyString (verification_code u)))
    as [[]|e]; simpl; repeat split; try done; by intros (_ & _ & _ & ?).
Qed.

Lemma verify_email_cases_witness :
  let u := demo_user "test@example.com" T0 in
  is_Ok (verify_email demo_lib demo_store "123456" 1 u (T0 + 5) (T0 + 6)).2
  ∧ (verify_email demo_lib demo_store "123456" 1 u (T0 + 5) (T0 + 6)).1
    = <[1 := verified_row u (T0 + 6)]> demo_store
  ∧ (verify_email demo_lib demo_store "000000" 1 u (T0 + 5) (T0 + 6)).2
    = Raise InvalidCode.
Proof.
  intros u.
  destruct (verify_email_cases demo_lib demo_store "123456" 1 u
              (T0 + 5) (T0 + 6)) as (Hiff & Hrow & _).
  destruct (verify_email_cases demo_lib demo_store "000000" 1 u
              (T0 + 5) (T0 + 6)) as (_ & _ & _ & _ & _ & _ & Hbad).
  assert (is_Ok (verify_email demo_lib demo_store "123456" 1 u
                   (T0 + 5) (T0 + 6)).2) as Hok.
  { apply Hiff. repeat split; try reflexivity. vm_compute. discriminate. }
  split; [exact Hok|]. split; [apply (Hrow Hok)|].
  apply Hbad; try reflexivity. vm_compute. discriminate.
Defined.

(** C9. For an unverified account that holds a code hash but no expiry,
    [verify_email] makes no expiry test: whatever the clock reads, the
    outcome is decided by the hash comparison alone, so the call succeeds
    exactly when the code verifies and never fails with CodeExpired. *)
Theorem verify_email_without_expiry lib (s : gmap Z User) code id u now t_db :
  is_verified u = false →
  truthy_str (verification_code u) = true →
  verification_code_expires_at u = None →
  let out := verify_email lib s code id u now t_db in
  let check := verify_password lib code (default EmptyString (verification_code u)) in
  out.2 = match check with
          | Ok true => Ok [("message", "Email verified successfully");
                           ("email", email u)]
          | Ok false => Raise InvalidCode
          | Raise e => Raise e
          end
  ∧ (is_Ok out.2 ↔ check = Ok true)
  ∧ (∀ b, check = Ok b → out.2 ≠ Raise CodeExpired).
Proof.
  intros Hv Hc He. unfold verify_email. rewrite Hv, Hc, He. cbn [negb].
  destruct (verify_password lib code (default EmptyString (verification_code u)))
    as [[]|e]; simpl; repeat split; try done.
  all: try (intros b [= <-]; done).
Qed.

Lemma verify_email_without_expiry_witness :
  let u := demo_user_no_expiry "test@example.com" T0 in
  (verify_email demo_lib demo_store "123456" 1 u
     (T0 + timedelta_days 36500) (T0 + timedelta_days 36500)).2
  = Ok [("message", "Email verified successfully");
        ("email", "test@example.com")].
Proof.
  intros u.
  destruct (verify_email_without_expiry demo_lib demo_store "123456" 1 u
              (T0 + timedelta_days 36500) (T0 + timedelta_days 36500)
              eq_refl eq_refl eq_refl) as [H _].
  vm_compute in H. vm_compute. exact H.
Defined.

(** ** The password hasher *)




(** ** Login *)

Lemma NoDup_only_elem {A} (l : list A) a :
  NoDup l → (∀ x, x ∈ l ↔ x = a) → l = [a].
Proof.
  intros Hnd Hall. destruct l as [|x [|y l]].
  - pose proof (proj2 (Hall a) eq_refl) as H. by apply elem_of_nil in H.
  - f_equal. apply Hall. apply elem_of_cons. by left.
  - apply NoDup_cons in Hnd as [Hx _]. destruct Hx.
    assert (x = a) as -> by (apply Hall, elem_of_cons; by left).
    assert (y = a) as ->
      by (apply Hall, elem_of_cons; right; apply elem_of_cons; by left).
    apply elem_of_cons. by left.
Qed.

Lemma select_by_email_none (s : gmap Z User) e :
  (∀ id u, s !! id = Some u → email u ≠ e) → select_by_email s e = [].
Proof.
  intros Hno. unfold select_by_email.
  destruct (filter _ _) as [|[id u] l] eqn:E; [done|].
  assert ((id, u) ∈ filter (λ r : Z * User, email r.2 = e) (map_to_list s))
    as Hin by (rewrite E; apply elem_of_cons; by left).
  apply list_elem_of_filter in Hin as [He Hin].
  apply elem_of_map_to_list in Hin. by destruct (Hno id u Hin).
Qed.

Lemma select_by_email_one (s : gmap Z User) e id u :
  unique_emails s → s !! id = Some u → email u = e →
  select_by_email s e = [(id, u)].
Proof.
  intros Huniq Hu He. unfold select_by_email.
  apply NoDup_only_elem.
  - apply NoDup_filter, NoDup_map_to_list.
  - intros [j v]. rewrite list_elem_of_filter, elem_of_map_to_list. simpl.
    split.
    + intros [Hv Hj]. assert (j = id) as ->.
      { apply (Huniq j id v u Hj Hu). congruence. }
      congruence.
    + by intros [= -> ->].
Qed.

Lemma demo_store_unique : unique_emails demo_store.
Proof.
  unfold demo_store.
  intros i j u v [<- _]%lookup_singleton_Some [<- _]%lookup_singleton_Some _.
  done.
Qed.




(** ** Registration *)

Lemma py_str_digit z :
  0 ≤ z < 10 → ∃ c, py_str z = String c EmptyString ∧ is_digit c = true.
Proof.
  intros Hz.
  assert (z = 0 ∨ z = 1 ∨ z = 2 ∨ z = 3 ∨ z = 4 ∨ z = 5 ∨ z = 6 ∨ z = 7
          ∨ z = 8 ∨ z = 9) as H by lia.
  repeat destruct H as [->|H]; try subst z; by eexists.
Qed.

Lemma randbelow_digit rng i :
  ∃ c, py_str (secrets_randbelow rng 10 i) = String c EmptyString
       ∧ is_digit c = true.
Proof. apply py_str_digit. unfold secrets_randbelow. apply Z.mod_pos_bound. lia. Qed.

(** The generated code has six characters, all of them digits. *)
Lemma gen_verification_code_digits rng :
  String.length (gen_verification_code rng) = 6%nat
  ∧ all_digits (gen_verification_code rng) = true.
Proof.
  unfold gen_verification_code. cbn [seq map].
  destruct (randbelow_digit rng 0) as (c0 & -> & H0).
  destruct (randbelow_digit rng 1) as (c1 & -> & H1).
  destruct (randbelow_digit rng 2) as (c2 & -> & H2).
  destruct (randbelow_digit rng 3) as (c3 & -> & H3).
  destruct (randbelow_digit rng 4) as (c4 & -> & H4).
  destruct (randbelow_digit rng 5) as (c5 & -> & H5).
  simpl. by rewrite H0, H1, H2, H3, H4, H5.
Qed.

Lemma decode_access_token lib settings id t_issue t_decode :
  jws_sound lib (SECRET_KEY settings) (ALGORITHM settings) →
  t_decode
    ≤ t_issue + timedelta_minutes (ACCESS_TOKEN_EXPIRE_MINUTES settings) →
  decode_token lib settings
    (create_access_token lib settings (sub_claims id) None t_issue) t_decode
  = Ok (access_claims id (access_exp settings t_issue)).
Proof.
  intros Hsound Hwin.
  destruct (access_claims_lookup id (access_exp settings t_issue))
    as (Hexp & Hsub & _).
  rewrite create_access_token_eq.
  rewrite (decode_signed _ _ _ _ _ _ Hsound
             (access_claims_serialisable _ _) Hexp Hsub).
  unfold access_exp. by rewrite (div_le_window _ _ _ Hwin).
Qed.

Lemma decode_refresh_token lib settings id t_issue t_decode :
  jws_sound lib (SECRET_KEY settings) (ALGORITHM settings) →
  t_decode ≤ t_issue + timedelta_days (REFRESH_TOKEN_EXPIRE_DAYS settings) →
  decode_token lib settings
    (create_refresh_token lib settings (sub_claims id) t_issue) t_decode
  = Ok (refresh_claims id (refresh_exp settings t_issue)).
Proof.
  intros Hsound Hwin.
  destruct (refresh_claims_lookup id (refresh_exp settings t_issue))
    as (Hexp & Hsub & _).
  rewrite create_refresh_token_eq.
  rewrite (decode_signed _ _ _ _ _ _ Hsound
             (refresh_claims_serialisable _ _) Hexp Hsub).
  unfold refresh_exp. by rewrite (div_le_window _ _ _ Hwin).
Qed.





(** ** Cleanup of unverified accounts *)

Lemma normalised_lt created cutoff oc :
  tzinfo cutoff = Some oc →
  dt_lt match tzinfo created with
        | None => replace_tzinfo_utc created
        | Some _ => created
        end cutoff
  = Ok (sql_lt created cutoff).
Proof.
  intros Hc. unfold dt_lt, sql_lt, sql_instant.
  destruct created as [m [o|]]; simpl; by rewrite Hc.
Qed.

Lemma valid_deletions_all users cutoff oc :
  tzinfo cutoff = Some oc →
  Forall (fun r : Z * User => sql_lt (created_at r.2) cutoff = true) users →
  valid_deletions users cutoff = Ok users.
Proof.
  intros Hc. induction 1 as [|r l Hr _ IH]; [done|].
  cbn [valid_deletions]. rewrite (normalised_lt _ _ _ Hc), Hr, IH. done.
Qed.

Lemma select_stale_elem settings (s : gmap Z User) now k u :
  (k, u) ∈ select_stale s
             (dt_sub (utc_now now)
                (timedelta_days (UNVERIFIED_USER_DELETE_DAYS settings)))
  ↔ s !! k = Some u ∧ stale settings now u = true.
Proof.
  unfold select_stale, stale, sql_lt.
  rewrite list_elem_of_filter, elem_of_map_to_list. cbn [fst snd].
  replace (sql_instant (dt_sub (utc_now now)
             (timedelta_days (UNVERIFIED_USER_DELETE_DAYS settings))))
    with (now - timedelta_days (UNVERIFIED_USER_DELETE_DAYS settings))
    by (unfold sql_instant; simpl; lia).
  rewrite andb_true_iff, negb_true_iff. tauto.
Qed.

Lemma select_stale_valid (s : gmap Z User) cutoff oc :
  tzinfo cutoff = Some oc →
  valid_deletions (select_stale s cutoff) cutoff = Ok (select_stale s cutoff).
Proof.
  intros Hc. apply (valid_deletions_all _ _ oc Hc).
  apply Forall_forall. intros r Hr.
  apply list_elem_of_filter in Hr as [[_ Hlt] _]. exact Hlt.
Qed.

(** What the task does, by the rows the query returns. *)
Lemma cleanup_run_eq settings (s : gmap Z User) now :
  let cutoff :=
    dt_sub (utc_now now)
      (timedelta_days (UNVERIFIED_USER_DELETE_DAYS settings)) in
  _cleanup_unverified settings s now
  = match select_stale s cutoff with
    | [] => {| run_store := s; run_log := [SelectStmt];
               run_result := Ok zero_report |}
    | rows =>
        {| run_store := delete_ids s (map fst rows);
           run_log := [SelectStmt; DeleteStmt (map fst rows); CommitStmt];
           run_result :=
             Ok {| deleted := Z.of_nat (length (map fst rows));
                   user_ids := map fst rows;
                   emails := map (fun r => email r.2) rows;
                   cutoff_date := Some cutoff |} |}
    end.
Proof.
  intros cutoff. unfold _cleanup_unverified. fold cutoff.
  rewrite (select_stale_valid s cutoff 0 eq_refl).
  by destruct (select_stale s cutoff).
Qed.

Lemma delete_ids_lookup (s : gmap Z User) ids k :
  delete_ids s ids !! k = if decide (k ∈ ids) then None else s !! k.
Proof.
  unfold delete_ids. rewrite map_lookup_filter.
  destruct (s !! k) as [u|]; simpl; [|by destruct (decide _)].
  destruct (decide (k ∈ ids)).
  - by rewrite option_guard_False by (simpl; tauto).
  - by rewrite option_guard_True.
Qed.

Lemma stale_ids_elem settings (s : gmap Z User) now k :
  k ∈ map fst (select_stale s
                 (dt_sub (utc_now now)
                    (timedelta_days (UNVERIFIED_USER_DELETE_DAYS settings))))
  ↔ ∃ u, s !! k = Some u ∧ stale settings now u = true.
Proof.
  change (map fst ?l) with (fst <$> l). rewrite list_elem_of_fmap. split.
  - intros ([k' u] & -> & Hin). exists u. by apply select_stale_elem.
  - intros (u & Hu). exists (k, u). split; [done|].
    by apply select_stale_elem.
Qed.

Lemma select_stale_none settings (s : gmap Z User) now :
  (∀ id u, s !! id = Some u → stale settings now u = false) →
  select_stale s
    (dt_sub (utc_now now)
       (timedelta_days (UNVERIFIED_USER_DELETE_DAYS settings))) = [].
Proof.
  intros Hno.
  destruct (select_stale _ _) as [|[k u] l] eqn:E; [done|].
  assert ((k, u) ∈ select_stale s
            (dt_sub (utc_now now)
               (timedelta_days (UNVERIFIED_USER_DELETE_DAYS settings))))
    as Hin by (rewrite E; apply elem_of_cons; by left).
  apply select_stale_elem in Hin as [Hk Hst].
  by rewrite (Hno k u Hk) in Hst.
Qed.

Lemma cleanup_store_lookup settings (s : gmap Z User) now id :
  run_store (_cleanup_unverified settings s now) !! id
  = match s !! id with
    | Some u => if stale settings now u then None else Some u
    | None => None
    end.
Proof.
  rewrite cleanup_run_eq. cbn zeta.
  pose proof (stale_ids_elem settings s now id) as Hids.
  pose proof (select_stale_elem settings s now id) as Hel.
  destruct (select_stale s _) as [|r rows] eqn:E.
  - cbn [run_store]. destruct (s !! id) as [u|] eqn:Hu; [|done].
    destruct (stale settings now u) eqn:Hst; [|done].
    pose proof (proj2 (Hel u) (conj eq_refl Hst)) as Hin.
    by apply elem_of_nil in Hin.
  - cbn [run_store]. rewrite delete_ids_lookup.
    destruct (decide (id ∈ map fst (r :: rows))) as [Hin|Hnin].
    + apply Hids in Hin as (u & -> & ->). done.
    + destruct (s !! id) as [u|] eqn:Hu; [|done].
      destruct (stale settings now u) eqn:Hst; [|done].
      destruct Hnin. apply Hids. by exists u.
Qed.

(** C4. For every clock reading, the cleanup task deletes exactly the
    accounts that are unverified and were created strictly before the
    clock minus the retention window (a naive creation time read as UTC)
    and leaves every other account as it is; its report lists exactly the
    deleted ids; when no account qualifies it returns the zero report
    after the query alone, with no delete and no commit; and a second run
    at once deletes nothing. *)
Theorem cleanup_unverified_spec settings (s : gmap Z User) now :
  let run := _cleanup_unverified settings s now in
  let zero_run st :=
    {| run_store := st; run_log := [SelectStmt];
       run_result := Ok zero_report |} in
  (∀ id,
     run_store run !! id
     = match s !! id with
       | Some u => if stale settings now u then None else Some u
       | None => None
       end)
  ∧ (∃ report,
       run_result run = Ok report
       ∧ deleted report = Z.of_nat (length (user_ids report))
       ∧ ∀ id, id ∈ user_ids report
               ↔ ∃ u, s !! id = Some u ∧ stale settings now u = true)
  ∧ ((∀ id u, s !! id = Some u → stale settings now u = false) →
     run = zero_run s)
  ∧ _cleanup_unverified settings (run_store run) now
    = zero_run (run_store run).
Proof.
  cbn zeta.
  assert (∀ st : gmap Z User,
            (∀ id u, st !! id = Some u → stale settings now u = false) →
            _cleanup_unverified settings st now
            = {| run_store := st; run_log := [SelectStmt];
                 run_result := Ok zero_report |}) as Hzero.
  { intros st Hno. rewrite cleanup_run_eq. cbn zeta.
    by rewrite (select_stale_none settings st now Hno). }
  split; [apply cleanup_store_lookup|].
  split.
  { rewrite cleanup_run_eq. cbn zeta.
    pose proof (stale_ids_elem settings s now) as Hids.
    destruct (select_stale s _) as [|r rows] eqn:E.
    - exists zero_report. repeat split; try done.
      + intros Hin. by apply elem_of_nil in Hin.
      + intros Hex. by apply Hids in Hex.
    - eexists. split; [reflexivity|]. split; [reflexivity|]. apply Hids. }
  split; [apply Hzero|].
  apply Hzero. intros id u Hu.
  rewrite cleanup_store_lookup in Hu.
  destruct (s !! id) as [v|]; [|done].
  destruct (stale settings now v) eqn:Hst; [done|]. congruence.
Qed.

Lemma cleanup_unverified_spec_witness :
  let now := T0 + timedelta_days 40 in
  let run := _cleanup_unverified demo_settings cleanup_store now in
  run_store run !! 1 = None
  ∧ run_store run !! 2 = cleanup_store !! 2
  ∧ run_store run !! 3 = cleanup_store !! 3
  ∧ run_store run !! 4 = None
  ∧ _cleanup_unverified demo_settings (run_store run) now
    = {| run_store := run_store run; run_log := [SelectStmt];
         run_result := Ok zero_report |}.
Proof.
  intros now run.
  destruct (cleanup_unverified_spec demo_settings cleanup_store now)
    as (Hlook & _ & _ & Hagain).
  fold run in Hlook, Hagain.
  split; [rewrite (Hlook 1); vm_compute; reflexivity|].
  split; [rewrite (Hlook 2); vm_compute; reflexivity|].
  split; [rewrite (Hlook 3); vm_compute; reflexivity|].
  split; [rewrite (Hlook 4); vm_compute; reflexivity|].
  exact Hagain.
Defined.

(** ** Admin update of a user *)

Lemma setattr_frame obj field value :
  frame_fields (setattr obj field value).1 = frame_fields obj.1.
Proof.
  destruct obj as [u b]. unfold setattr.
  repeat (destruct (String.eqb field _)); try destruct value; reflexivity.
Qed.

Lemma foldl_setattr_frame (l : list (string * option string)) obj :
  frame_fields (foldl (fun obj fv => setattr obj fv.1 fv.2) obj l).1
  = frame_fields obj.1.
Proof.
  revert obj. induction l as [|fv l IH]; intros obj; [done|].
  cbn [foldl]. by rewrite IH, setattr_frame.
Qed.

(** C10. Whatever the outcome of an admin update, every account of the
    table is still there with the same password hash, role, verification
    flag, verification code, code expiry and creation time; accounts
    other than the target are not changed at all, and no account
    appears.  So only the names and the email of the target (and the
    [updated_at] stamp the column maintains) can change. *)
Theorem update_user_frame lib (s : gmap Z User) user_id update_data t_db :
  let out := update_user lib s user_id update_data t_db in
  (∀ k u, s !! k = Some u →
     ∃ u', out.1 !! k = Some u'
           ∧ frame_fields u' = frame_fields u
           ∧ (k ≠ user_id → u' = u))
  ∧ (∀ k, s !! k = None → out.1 !! k = None).
Proof.
  cbn zeta.
  assert (∀ r : Result UserResponse,
            (∀ k u, s !! k = Some u →
               ∃ u', (s, r).1 !! k = Some u'
                     ∧ frame_fields u' = frame_fields u
                     ∧ (k ≠ user_id → u' = u))
            ∧ (∀ k, s !! k = None → (s, r).1 !! k = None)) as Hsame.
  { intros r. split; [|done]. intros k u Hk. by exists u. }
  unfold update_user, select_by_id.
  destruct (s !! user_id) as [user|] eqn:Huser;
    cbn [scalar_one_or_none]; [|apply Hsame].
  destruct (model_dump_exclude_unset update_data) as [|fv l] eqn:Hdump;
    [apply Hsame|].
  destruct (match upd_email update_data with
            | Some e => scalar_one_or_none (select_email_other s e user_id)
            | None => Ok None
            end) as [[other|]|e]; try apply Hsame.
  pose proof (foldl_setattr_frame (fv :: l) (user, false)) as Hframe.
  destruct (foldl _ (user, false) (fv :: l)) as [user' null_email].
  cbn [fst] in Hframe.
  destruct null_email; [apply Hsame|].
  case_bool_decide; [apply Hsame|].
  cbn [fst]. split.
  - intros k u Hk. destruct (decide (k = user_id)) as [->|Hne].
    + exists (touch user' t_db). rewrite lookup_insert_eq.
      split; [done|]. split; [|done].
      assert (u = user) as -> by congruence. exact Hframe.
    + exists u. by rewrite lookup_insert_ne.
  - intros k Hk. rewrite lookup_insert_ne; [done|]. congruence.
Qed.

Lemma update_user_frame_witness :
  let upd :=
    {| upd_first_name := Some (Some "Jane");
       upd_last_name := None;
       upd_email := Some (Some "jane@example.com") |} in
  ∃ u',
    (update_user demo_lib demo_store 1 upd (T0 + 5)).1 !! 1 = Some u'
    ∧ frame_fields u' = frame_fields (demo_user "test@example.com" T0).
Proof.
  intros upd.
  destruct (proj1 (update_user_frame demo_lib demo_store 1 upd (T0 + 5))
              1 (demo_user "test@example.com" T0) eq_refl)
    as (u' & Hu' & Hframe & _).
  exists u'. split; [exact Hu'|exact Hframe].
Defined.

(** * Further properties of the service *)

(** ** Decoding *)

(** X1. [decode_token] fails with a [JWTError] and nothing else, and a
    payload it returns is the one the signature check produced. *)
Theorem decode_token_outcomes lib settings token now :
  match decode_token lib settings token now with
  | Ok payload =>
      jws_verify lib token (SECRET_KEY settings) (ALGORITHM settings)
      = inr payload
  | Raise e => ∃ msg, e = JWTError msg
  end.
Proof.
  unfold decode_token, jwt_decode.
  destruct (jws_verify lib token _ _) as [m|claims]; [by eexists|].
  destruct (validate_exp claims now) as [[]|]; try by eexists.
  destruct (validate_sub claims) as [[]|]; by eexists.
Qed.

(** X2. A token the service issued is refused as expired exactly when the
    clock second of the decoder is past the second of its [exp] claim;
    during the whole second of the expiry it still decodes. *)
Theorem issued_token_expiry lib settings id t_issue t_decode :
  jws_sound lib (SECRET_KEY settings) (ALGORITHM settings) →
  decode_token lib settings
    (create_access_token lib settings (sub_claims id) None t_issue) t_decode
  = (if access_exp settings t_issue <? t_decode / 1000000
     then Raise (JWTError "Token has expired")
     else Ok (access_claims id (access_exp settings t_issue)))
  ∧ decode_token lib settings
      (create_refresh_token lib settings (sub_claims id) t_issue) t_decode
    = (if refresh_exp settings t_issue <? t_decode / 1000000
       then Raise (JWTError "Token has expired")
       else Ok (refresh_claims id (refresh_exp settings t_issue))).
Proof.
  intros Hsound. split.
  - destruct (access_claims_lookup id (access_exp settings t_issue))
      as (Hexp & Hsub & _).
    rewrite create_access_token_eq.
    apply (decode_signed _ _ _ _ _ _ Hsound
             (access_claims_serialisable _ _) Hexp Hsub).
  - destruct (refresh_claims_lookup id (refresh_exp settings t_issue))
      as (Hexp & Hsub & _).
    rewrite create_refresh_token_eq.
    apply (decode_signed _ _ _ _ _ _ Hsound
             (refresh_claims_serialisable _ _) Hexp Hsub).
Qed.

Lemma issued_token_expiry_witness :
  decode_token demo_lib demo_settings
    (create_access_token demo_lib demo_settings (sub_claims 1) None T0)
    (T0 + timedelta_minutes 30 + 999999)
  = Ok (access_claims 1 (access_exp demo_settings T0))
  ∧ decode_token demo_lib demo_settings
      (create_access_token demo_lib demo_settings (sub_claims 1) None T0)
      (T0 + timedelta_minutes 30 + 1000000)
    = Raise (JWTError "Token has expired").
Proof.
  split.
  - rewrite (proj1 (issued_token_expiry demo_lib demo_settings 1 T0
                      (T0 + timedelta_minutes 30 + 999999) (demo_sound _ _))).
    reflexivity.
  - rewrite (proj1 (issued_token_expiry demo_lib demo_settings 1 T0
                      (T0 + timedelta_minutes 30 + 1000000) (demo_sound _ _))).
    reflexivity.
Defined.

(** X3. An explicit lifetime of zero is taken as no lifetime at all: the
    access token then gets the configured default.  Any other lifetime
    [d] is honoured: the token decodes until the clock second passes
    that of [now + d]. *)
Theorem create_access_token_lifetime lib settings id d t_issue t_decode :
  jws_sound lib (SECRET_KEY settings) (ALGORITHM settings) →
  create_access_token lib settings (sub_claims id) (Some 0) t_issue
  = create_access_token lib settings (sub_claims id) None t_issue
  ∧ (d ≠ 0 →
     decode_token lib settings
       (create_access_token lib settings (sub_claims id) (Some d) t_issue)
       t_decode
     = if (t_issue + d) / 1000000 <? t_decode / 1000000
       then Raise (JWTError "Token has expired")
       else Ok (access_claims id ((t_issue + d) / 1000000))).
Proof.
  intros Hsound. split; [reflexivity|]. intros Hd.
  assert (create_access_token lib settings (sub_claims id) (Some d) t_issue
          = jws_sign lib (access_claims id ((t_issue + d) / 1000000))
              (SECRET_KEY settings) (ALGORITHM settings)) as ->.
  { unfold create_access_token, jwt_encode, intdate_claims, access_claims,
      sub_claims. rewrite bool_decide_eq_false_2 by done. f_equal. simpl.
    repeat (rewrite lookup_insert_ne by done;
            rewrite lookup_singleton_ne by done).
    rewrite lookup_insert_eq, insert_insert_eq.
    by rewrite <- timegm_utc_now. }
  destruct (access_claims_lookup id ((t_issue + d) / 1000000))
    as (Hexp & Hsub & _).
  apply (decode_signed _ _ _ _ _ _ Hsound
           (access_claims_serialisable _ _) Hexp Hsub).
Qed.

Lemma create_access_token_lifetime_witness :
  decode_token demo_lib demo_settings
    (create_access_token demo_lib demo_settings (sub_claims 1)
       (Some (timedelta_minutes 5)) T0)
    (T0 + timedelta_minutes 6)
  = Raise (JWTError "Token has expired").
Proof.
  rewrite (proj2 (create_access_token_lifetime demo_lib demo_settings 1
                    (timedelta_minutes 5) T0 (T0 + timedelta_minutes 6)
                    (demo_sound _ _))).
  - reflexivity.
  - discriminate.
Defined.

(** ** The bearer check and the refresh operation *)

Lemma get_current_user_decoded lib settings (s : gmap Z User) token now
    payload :
  decode_token lib settings token now = Ok payload →
  get_current_user lib settings s token now
  = match payload_get payload "sub" with
    | PNone => Raise credentials_exception
    | v =>
        match py_int v with
        | Ok id =>
            match s !! id with
            | Some u => Ok (id, u)
            | None =>
                Raise (HTTPException HTTP_404_NOT_FOUND "User not found" [])
            end
        | Raise _ => Raise credentials_exception
        end
    end.
Proof.
  intros Hdec. unfold get_current_user. rewrite Hdec.
  cbn [mbind result_bind try_except].
  assert (∀ v, v ≠ PNone →
            try_except
              (try_except (py_int v)
                 (fun e => match e with
                           | TypeError _ | ValueError _ =>
                               Raise credentials_exception
                           | _ => Raise e
                           end))
              (fun _ => Raise credentials_exception)
            = match py_int v with
              | Ok id => Ok id
              | Raise _ => Raise credentials_exception
              end) as Hint.
  { intros v _. destruct (py_int v) as [id|[]]; reflexivity. }
  destruct (payload_get payload "sub") eqn:Hget; [reflexivity|..];
    rewrite <- Hget in *;
    (rewrite Hint by (rewrite Hget; done));
    (destruct (py_int (payload_get payload "sub")) as [id|e];
     cbn [mbind result_bind]; [|reflexivity]);
    unfold select_by_id; by destruct (s !! id).
Qed.

(** X4. The bearer check returns only rows of the table, found under the
    id the token's subject denotes; when it fails, it fails with the 401
    credentials error or with 404 for a missing user. *)
Theorem get_current_user_outcomes lib settings (s : gmap Z User) token now :
  match get_current_user lib settings s token now with
  | Ok (id, u) =>
      s !! id = Some u
      ∧ ∃ payload,
          decode_token lib settings token now = Ok payload
          ∧ py_int (payload_get payload "sub") = Ok id
  | Raise e =>
      e = credentials_exception
      ∨ e = HTTPException HTTP_404_NOT_FOUND "User not found" []
  end.
Proof.
  destruct (decode_token lib settings token now) as [payload|e] eqn:Hdec.
  - rewrite (get_current_user_decoded _ _ _ _ _ _ Hdec).
    destruct (payload_get payload "sub") eqn:Hget; [by left|..];
      (destruct (py_int _) as [id|e] eqn:Hint; [|by left]);
      (destruct (s !! id) as [u|] eqn:Hu; [|by right]);
      (split; [done|]); exists payload; by rewrite Hget.
  - unfold get_current_user. rewrite Hdec. by left.
Qed.

(** X5. With an access token the service issued: 401 once it has expired,
    404 when the subject is no longer in the table, the subject's row
    otherwise. *)
Theorem get_current_user_access_token lib settings (s : gmap Z User) id
    t_issue now :
  jws_sound lib (SECRET_KEY settings) (ALGORITHM settings) →
  get_current_user lib settings s
    (create_access_token lib settings (sub_claims id) None t_issue) now
  = if access_exp settings t_issue <? now / 1000000
    then Raise credentials_exception
    else match s !! id with
         | Some u => Ok (id, u)
         | None =>
             Raise (HTTPException HTTP_404_NOT_FOUND "User not found" [])
         end.
Proof.
  intros Hsound.
  destruct (access_claims_lookup id (access_exp settings t_issue))
    as (Hexp & Hsub & _).
  pose proof (decode_signed _ _ _ _ _ now Hsound
                (access_claims_serialisable _ _) Hexp Hsub) as Hdec.
  rewrite <- create_access_token_eq in Hdec.
  destruct (access_exp settings t_issue <? now / 1000000).
  - unfold get_current_user. by rewrite Hdec.
  - rewrite (get_current_user_decoded _ _ _ _ _ _ Hdec).
    by rewrite (payload_get_Some _ _ _ Hsub), py_int_str.
Qed.

Lemma get_current_user_access_token_witness :
  get_current_user demo_lib demo_settings demo_store
    (create_access_token demo_lib demo_settings (sub_claims 1) None T0)
    (T0 + 5)
  = Ok (1, demo_user "test@example.com" T0)
  ∧ get_current_user demo_lib demo_settings demo_store
      (create_access_token demo_lib demo_settings (sub_claims 9) None T0)
      (T0 + 5)
    = Raise (HTTPException HTTP_404_NOT_FOUND "User not found" []).
Proof.
  split.
  - rewrite (get_current_user_access_token demo_lib demo_settings demo_store
               1 T0 (T0 + 5) (demo_sound _ _)).
    reflexivity.
  - rewrite (get_current_user_access_token demo_lib demo_settings demo_store
               9 T0 (T0 + 5) (demo_sound _ _)).
    reflexivity.
Defined.

(** X6. A string that fails the signature check is refused at both
    doors with 401: as a bearer credential, and as a refresh token. *)
Theorem bad_signature_rejected lib settings (s : gmap Z User) token msg
    now t_access t_refresh :
  jws_verify lib token (SECRET_KEY settings) (ALGORITHM settings) = inl msg →
  get_current_user lib settings s token now = Raise credentials_exception
  ∧ refresh_access_token lib settings s token now t_access t_refresh
    = Raise (unauthorized "Invalid or expired refresh token").
Proof.
  intros Hbad.
  assert (decode_token lib settings token now
          = Raise (JWTError ("Could not decode token: " +:+ msg))) as Hdec.
  { unfold decode_token, jwt_decode. by rewrite Hbad. }
  unfold get_current_user, refresh_access_token. by rewrite Hdec.
Qed.

Lemma bad_signature_rejected_witness :
  get_current_user demo_lib demo_settings demo_store "invalid.token.here" T0
  = Raise credentials_exception
  ∧ refresh_access_token demo_lib demo_settings demo_store
      "invalid.token.here" T0 T0 T0
    = Raise (unauthorized "Invalid or expired refresh token").
Proof.
  apply (bad_signature_rejected demo_lib demo_settings demo_store
           "invalid.token.here" "Not enough segments" T0 T0 T0).
  reflexivity.
Defined.

(** X7. With a refresh token the service issued: 401 once it has expired,
    404 when the subject is no longer in the table, and otherwise a new
    pair for the same subject. *)
Theorem refresh_issued_token lib settings (s : gmap Z User) id t_issue
    t_decode t_access t_refresh :
  jws_sound lib (SECRET_KEY settings) (ALGORITHM settings) →
  refresh_access_token lib settings s
    (create_refresh_token lib settings (sub_claims id) t_issue)
    t_decode t_access t_refresh
  = if refresh_exp settings t_issue <? t_decode / 1000000
    then Raise (unauthorized "Invalid or expired refresh token")
    else match s !! id with
         | Some _ => Ok (token_pair lib settings id t_access t_refresh)
         | None =>
             Raise (HTTPException HTTP_404_NOT_FOUND "User not found" [])
         end.
Proof.
  intros Hsound.
  destruct (refresh_claims_lookup id (refresh_exp settings t_issue))
    as (Hexp & Hsub & Htype).
  pose proof (decode_signed _ _ _ _ _ t_decode Hsound
                (refresh_claims_serialisable _ _) Hexp Hsub) as Hdec.
  rewrite <- create_refresh_token_eq in Hdec.
  unfold refresh_access_token. rewrite Hdec.
  destruct (refresh_exp settings t_issue <? t_decode / 1000000); [done|].
  cbn [mbind result_bind try_except].
  rewrite (payload_get_Some _ _ _ Htype).
  rewrite bool_decide_eq_false_2 by (intros H; by apply H).
  rewrite (payload_get_Some _ _ _ Hsub), py_int_str.
  cbn [mbind result_bind try_except]. unfold select_by_id.
  by destruct (s !! id).
Qed.

Lemma refresh_issued_token_witness :
  refresh_access_token demo_lib demo_settings demo_store
    (create_refresh_token demo_lib demo_settings (sub_claims 1) T0)
    (T0 + timedelta_days 8) (T0 + timedelta_days 8) (T0 + timedelta_days 8)
  = Raise (unauthorized "Invalid or expired refresh token").
Proof.
  rewrite (refresh_issued_token demo_lib demo_settings demo_store 1 T0
             (T0 + timedelta_days 8) (T0 + timedelta_days 8)
             (T0 + timedelta_days 8) (demo_sound _ _)).
  reflexivity.
Defined.

(** ** Sign-up, login and verification together *)

Lemma bearer_with_access_token lib settings (s : gmap Z User) id u
    t_issue now :
  jws_sound lib (SECRET_KEY settings) (ALGORITHM settings) →
  now ≤ t_issue + timedelta_minutes (ACCESS_TOKEN_EXPIRE_MINUTES settings) →
  s !! id = Some u →
  get_current_user lib settings s
    (create_access_token lib settings (sub_claims id) None t_issue) now
  = Ok (id, u).
Proof.
  intros Hsound Hwin Hu.
  rewrite (get_current_user_decoded _ _ _ _ _ _
             (decode_access_token _ _ _ _ _ Hsound Hwin)).
  destruct (access_claims_lookup id (access_exp settings t_issue))
    as (_ & Hsub & _).
  by rewrite (payload_get_Some _ _ _ Hsub), py_int_str, Hu.
Qed.

Lemma register_user_fresh lib settings (s : gmap Z User) request rng
    salt_pw salt_code t_exp t_db t_access t_refresh :
  (∀ id u, s !! id = Some u → email u ≠ signup_email request) →
  register_user lib settings s request rng salt_pw salt_code
    t_exp t_db t_access t_refresh
  = (<[next_id lib s :=
         registered_row lib settings request rng salt_pw salt_code t_exp t_db]>
       s,
     Ok (token_pair lib settings (next_id lib s) t_access t_refresh)).
Proof.
  intros Hno. unfold register_user.
  by rewrite (select_by_email_none s _ Hno).
Qed.

Lemma unique_emails_insert (s : gmap Z User) k r :
  unique_emails s →
  (∀ j v, j ≠ k → s !! j = Some v → email v ≠ email r) →
  unique_emails (<[k := r]> s).
Proof.
  intros Huniq Hother i j u v Hi Hj He.
  destruct (decide (i = k)) as [->|Hik], (decide (j = k)) as [->|Hjk];
    [done|..].
  - rewrite lookup_insert_eq in Hi. rewrite lookup_insert_ne in Hj by done.
    injection Hi as <-. by destruct (Hother j v Hjk Hj).
  - rewrite lookup_insert_eq in Hj. rewrite lookup_insert_ne in Hi by done.
    injection Hj as <-. by destruct (Hother i u Hik Hi).
  - rewrite lookup_insert_ne in Hi, Hj by done. by apply (Huniq i j u v).
Qed.

Lemma unique_emails_same_email (s : gmap Z User) k u r :
  unique_emails s → s !! k = Some u → email r = email u →
  unique_emails (<[k := r]> s).
Proof.
  intros Huniq Hk He. apply unique_emails_insert; [done|].
  intros j v Hjk Hj Hev. apply Hjk, (Huniq j k v u Hj Hk). congruence.
Qed.

Lemma unique_emails_subset (s s' : gmap Z User) :
  unique_emails s → (∀ k u, s' !! k = Some u → s !! k = Some u) →
  unique_emails s'.
Proof. intros Huniq Hsub i j u v Hi Hj. apply Huniq; by apply Hsub. Qed.

(** X8. A login with the email of an account and a password that verifies
    returns a token pair for that account, whether the account is
    verified or not, and the access token of the pair passes the bearer
    check as that account. *)
Theorem login_success lib settings (s : gmap Z User) request id u
    t_access t_refresh now :
  unique_emails s →
  s !! id = Some u →
  email u = login_email request →
  verify_password lib (login_password request) (hashed_password u) = Ok true →
  jws_sound lib (SECRET_KEY settings) (ALGORITHM settings) →
  now ≤ t_access + timedelta_minutes (ACCESS_TOKEN_EXPIRE_MINUTES settings) →
  ∃ resp,
    login_user lib settings s request t_access t_refresh = Ok resp
    ∧ resp = token_pair lib settings id t_access t_refresh
    ∧ get_current_user lib settings s (access_token resp) now = Ok (id, u).
Proof.
  intros Huniq Hu He Hpw Hsound Hwin. eexists. split; [|split; [done|]].
  - unfold login_user. rewrite (select_by_email_one s _ id u Huniq Hu He).
    cbn [scalar_one_or_none mbind result_bind]. by rewrite Hpw.
  - by apply bearer_with_access_token.
Qed.

Lemma login_success_witness :
  ∃ resp,
    login_user demo_lib demo_settings demo_store
      {| login_email := "test@example.com"; login_password := "Passw0rd1" |}
      T0 T0 = Ok resp
    ∧ resp = token_pair demo_lib demo_settings 1 T0 T0
    ∧ get_current_user demo_lib demo_settings demo_store
        (access_token resp) (T0 + 5)
      = Ok (1, demo_user "test@example.com" T0).
Proof.
  apply (login_success demo_lib demo_settings demo_store
           {| login_email := "test@example.com";
              login_password := "Passw0rd1" |}
           1 (demo_user "test@example.com" T0) T0 T0 (T0 + 5)
           demo_store_unique eq_refl eq_refl eq_refl (demo_sound _ _)).
  vm_compute. discriminate.
Defined.

(** X9. Sign-up followed by login: after a registration that found no
    account with the email, a login with the same email and password
    succeeds and returns a pair for the new account, provided the hasher
    accepts the password against the hash it has just produced. *)
Theorem register_then_login lib settings (s : gmap Z User) request rng
    salt_pw salt_code t_exp t_db t_access t_refresh t_access' t_refresh' :
  unique_emails s →
  (∀ id u, s !! id = Some u → email u ≠ signup_email request) →
  verify_password lib (signup_password request)
    (bcrypt_hash lib salt_pw (signup_password request)) = Ok true →
  let out :=
    register_user lib settings s request rng salt_pw salt_code
      t_exp t_db t_access t_refresh in
  login_user lib settings out.1
    {| login_email := signup_email request;
       login_password := signup_password request |} t_access' t_refresh'
  = Ok (token_pair lib settings (next_id lib s) t_access' t_refresh').
Proof.
  intros Huniq Hno Hpw. cbn zeta.
  rewrite (register_user_fresh _ _ _ _ _ _ _ _ _ _ _ Hno). cbn [fst].
  unfold login_user.
  rewrite (select_by_email_one _ _ (next_id lib s)
             (registered_row lib settings request rng salt_pw salt_code
                t_exp t_db)).
  - cbn [scalar_one_or_none mbind result_bind login_password
         hashed_password registered_row]. unfold hash_password.
    by rewrite Hpw.
  - apply unique_emails_insert; [done|]. intros j v _ Hj. by apply (Hno j v).
  - apply lookup_insert_eq.
  - reflexivity.
Qed.

Lemma register_then_login_witness :
  login_user demo_lib demo_settings
    (register_user demo_lib demo_settings demo_store
       {| signup_email := "new@example.com"; signup_password := "Passw0rd1";
          signup_first_name := None; signup_last_name := None |}
       demo_rng "saltA" "saltB" T0 T0 T0 T0).1
    {| login_email := "new@example.com"; login_password := "Passw0rd1" |}
    (T0 + 9) (T0 + 9)
  = Ok (token_pair demo_lib demo_settings 2 (T0 + 9) (T0 + 9)).
Proof.
  apply (register_then_login demo_lib demo_settings demo_store
           {| signup_email := "new@example.com";
              signup_password := "Passw0rd1";
              signup_first_name := None; signup_last_name := None |}
           demo_rng "saltA" "saltB" T0 T0 T0 T0 (T0 + 9) (T0 + 9)
           demo_store_unique).
  - unfold demo_store. intros id u [_ <-]%lookup_singleton_Some.
    discriminate.
  - reflexivity.
Defined.



(** ** Verification is final; resending a code *)

Lemma verify_email_Ok_store lib (s : gmap Z User) code id u now t_db :
  is_Ok (verify_email lib s code id u now t_db).2 →
  (verify_email lib s code id u now t_db).1 = <[id := verified_row u t_db]> s.
Proof.
  unfold verify_email.
  destruct (is_verified u); [done|].
  destruct (truthy_str (verification_code u)); [|done]. cbn [negb].
  destruct (match verification_code_expires_at u with
            | Some e => code_expired e now
            | None => Ok false
            end) as [[]|]; try done.
  by destruct (verify_password lib code _) as [[]|].
Qed.

(** X11. Verification is final: once [verify_email] has succeeded, the
    account's row is verified, a further verification attempt and a code
    resend both fail with the already-verified error and leave the table
    alone, and the row passes the verified-user dependency. *)
Theorem verified_is_final lib settings (s : gmap Z User) code id u now t_db :
  let out := verify_email lib s code id u now t_db in
  is_Ok out.2 →
  ∃ row,
    out.1 !! id = Some row
    ∧ is_verified row = true
    ∧ (∀ code' now' t_db',
         verify_email lib out.1 code' id row now' t_db'
         = (out.1, Raise AlreadyVerified))
    ∧ (∀ rng salt t_exp t_db',
         resend_verification_code lib settings out.1 id row rng salt
           t_exp t_db'
         = (out.1, Raise AlreadyVerified))
    ∧ get_current_verified_user (id, row) = Ok (id, row).
Proof.
  cbn zeta. intros Hok.
  rewrite (verify_email_Ok_store _ _ _ _ _ _ _ Hok).
  exists (verified_row u t_db). split; [apply lookup_insert_eq|].
  by repeat split.
Qed.

Lemma verified_is_final_witness :
  let u := demo_user "test@example.com" T0 in
  let out := verify_email demo_lib demo_store "123456" 1 u (T0 + 5) (T0 + 6) in
  ∃ row,
    out.1 !! 1 = Some row
    ∧ verify_email demo_lib out.1 "123456" 1 row (T0 + 7) (T0 + 8)
      = (out.1, Raise AlreadyVerified).
Proof.
  intros u out.
  destruct (verified_is_final demo_lib demo_settings demo_store "123456" 1 u
              (T0 + 5) (T0 + 6)) as (row & Hrow & _ & Hagain & _).
  - vm_compute. exact I.
  - exists row. split; [exact Hrow|apply Hagain].
Defined.

Lemma resend_unverified lib settings (s : gmap Z User) id u rng salt
    t_exp t_db :
  s !! id = Some u → is_verified u = false →
  ∃ row,
    resend_verification_code lib settings s id u rng salt t_exp t_db
    = (<[id := row]> s,
       Ok {| resend_message := "New verification code sent";
             resend_expires_at :=
               utc_now (t_exp + timedelta_hours
                                  (VERIFICATION_CODE_EXPIRE_HOURS settings)) |})
    ∧ verification_code row
      = Some (bcrypt_hash lib salt (gen_verification_code rng))
    ∧ verification_code_expires_at row
      = Some (utc_now (t_exp + timedelta_hours
                                 (VERIFICATION_CODE_EXPIRE_HOURS settings)))
    ∧ resend_frame row = resend_frame u.
Proof.
  intros Hu Hv. unfold resend_verification_code. rewrite Hv.
  case_bool_decide as Heq.
  - exists u. rewrite (insert_id s id u Hu). split; [reflexivity|].
    rewrite <- Heq at 1 2. by repeat split.
  - eexists. split; [reflexivity|]. repeat split.
    unfold resend_frame. simpl. by rewrite Hv.
Qed.

(** X12. A code resend is refused with the already-verified error, the
    table untouched, when the account is verified.  Otherwise the row
    gets the hash of a fresh six-digit code and an expiry of the clock
    plus the configured hours; its email, password hash, names, role,
    verification flag and creation time stay, and so does every other
    account. *)
Theorem resend_verification_code_spec lib settings (s : gmap Z User) id u
    rng salt t_exp t_db :
  s !! id = Some u →
  let out := resend_verification_code lib settings s id u rng salt t_exp t_db in
  (is_verified u = true → out = (s, Raise AlreadyVerified))
  ∧ (is_verified u = false →
     ∃ row code,
       out.1 !! id = Some row
       ∧ is_Ok out.2
       ∧ String.length code = 6%nat ∧ all_digits code = true
       ∧ verification_code row = Some (bcrypt_hash lib salt code)
       ∧ verification_code_expires_at row
         = Some (utc_now (t_exp + timedelta_hours
                                    (VERIFICATION_CODE_EXPIRE_HOURS settings)))
       ∧ resend_frame row = resend_frame u
       ∧ ∀ k, k ≠ id → out.1 !! k = s !! k).
Proof.
  intros Hu. cbn zeta. split.
  - intros Hv. unfold resend_verification_code. by rewrite Hv.
  - intros Hv.
    destruct (resend_unverified lib settings s id u rng salt t_exp t_db Hu Hv)
      as (row & -> & Hcode & Hexp & Hframe).
    destruct (gen_verification_code_digits rng) as [Hlen Hdig].
    exists row, (gen_verification_code rng). cbn [fst snd].
    split; [apply lookup_insert_eq|]. split; [exact I|].
    repeat (split; [done|]).
    intros k Hk. by rewrite lookup_insert_ne.
Qed.

Lemma resend_verification_code_spec_witness :
  let u := demo_user "test@example.com" T0 in
  ∃ row,
    (resend_verification_code demo_lib demo_settings demo_store 1 u demo_rng
       "saltC" (T0 + timedelta_days 2) (T0 + timedelta_days 2)).1 !! 1
    = Some row
    ∧ verification_code_expires_at row
      = Some (utc_now (T0 + timedelta_days 2 + timedelta_hours 24)).
Proof.
  intros u.
  destruct (proj2 (resend_verification_code_spec demo_lib demo_settings
                     demo_store 1 u demo_rng "saltC" (T0 + timedelta_days 2)
                     (T0 + timedelta_days 2) eq_refl) eq_refl)
    as (row & code & Hrow & _ & _ & _ & _ & Hexp & _).
  exists row. split; [exact Hrow|exact Hexp].
Defined.

(** X13. After a resend for an unverified account, whatever code and
    expiry the row held before (an expired one included), the new code
    verifies until the new expiry, provided the hasher accepts it against
    its own hash; and a code the hasher does not accept against the new
    hash is refused as invalid. *)
Theorem resend_then_verify lib settings (s : gmap Z User) id u rng salt
    t_exp t_db now t_db' :
  s !! id = Some u →
  is_verified u = false →
  verify_password lib (gen_verification_code rng)
    (bcrypt_hash lib salt (gen_verification_code rng)) = Ok true →
  now ≤ t_exp + timedelta_hours (VERIFICATION_CODE_EXPIRE_HOURS settings) →
  let out := resend_verification_code lib settings s id u rng salt t_exp t_db in
  ∃ row,
    out.1 !! id = Some row
    ∧ is_Ok (verify_email lib out.1 (gen_verification_code rng) id row
               now t_db').2
    ∧ ∀ other,
        verify_password lib other
          (bcrypt_hash lib salt (gen_verification_code rng)) = Ok false →
        verify_email lib out.1 other id row now t_db'
        = (out.1, Raise InvalidCode).
Proof.
  intros Hu Hv Hcode Hnow. cbn zeta.
  destruct (resend_unverified lib settings s id u rng salt t_exp t_db Hu Hv)
    as (row & -> & Hrc & Hexp & Hframe).
  exists row. cbn [fst]. split; [apply lookup_insert_eq|].
  assert (is_verified row = false) as Hrv.
  { unfold resend_frame in Hframe. injection Hframe as _ _ _ _ _ ->. done. }
  assert (∀ c, verify_email lib (<[id := row]> s) c id row now t_db'
               = match verify_password lib c
                         (bcrypt_hash lib salt (gen_verification_code rng))
                 with
                 | Ok true =>
                     (<[id := verified_row row t_db']> (<[id := row]> s),
                      Ok [("message", "Email verified successfully");
                          ("email", email row)])
                 | Ok false => (<[id := row]> s, Raise InvalidCode)
                 | Raise e => (<[id := row]> s, Raise e)
                 end) as Hve.
  { intros c. unfold verify_email. rewrite Hrv, Hrc, Hexp.
    destruct (bcrypt_hash lib salt (gen_verification_code rng))
      as [|c0 r0] eqn:Hh; [discriminate Hcode|].
    cbn [truthy_str negb].
    change (default EmptyString (Some (String c0 r0))) with (String c0 r0).
    rewrite code_expired_eq.
    replace (sql_instant _ <? now) with false.
    2:{ symmetry. apply Z.ltb_ge. unfold sql_instant. simpl. lia. }
    by destruct (verify_password lib c (String c0 r0)) as [[]|]. }
  split.
  - rewrite Hve, Hcode. exact I.
  - intros other Hbad. by rewrite Hve, Hbad.
Qed.

Lemma resend_then_verify_witness :
  let u := demo_user "test@example.com" T0 in
  let t := T0 + timedelta_days 2 in
  let out :=
    resend_verification_code demo_lib demo_settings demo_store 1 u demo_rng
      "saltC" t t in
  ∃ row,
    out.1 !! 1 = Some row
    ∧ is_Ok (verify_email demo_lib out.1 (gen_verification_code demo_rng)
               1 row (t + 5) (t + 5)).2
    ∧ verify_email demo_lib out.1 "123456" 1 row (t + 5) (t + 5)
      = (out.1, Raise InvalidCode).
Proof.
  intros u t out.
  destruct (resend_then_verify demo_lib demo_settings demo_store 1 u demo_rng
              "saltC" t t (t + 5) (t + 5) eq_refl eq_refl)
    as (row & Hrow & Hok & Hbad).
  - vm_compute. reflexivity.
  - vm_compute. discriminate.
  - exists row. split; [exact Hrow|]. split; [exact Hok|].
    apply Hbad. vm_compute. reflexivity.
Defined.

(** X14. A login never succeeds without an account whose stored hash
    verifies the submitted password: a returned pair is the pair of an
    account of the table that has the submitted email. *)
Theorem login_only_with_valid_password lib settings (s : gmap Z User) request
    t_access t_refresh resp :
  login_user lib settings s request t_access t_refresh = Ok resp →
  ∃ id u,
    s !! id = Some u
    ∧ email u = login_email request
    ∧ verify_password lib (login_password request) (hashed_password u)
      = Ok true
    ∧ resp = token_pair lib settings id t_access t_refresh.
Proof.
  unfold login_user.
  destruct (select_by_email s (login_email request)) as [|[id u] [|]] eqn:E;
    cbn [scalar_one_or_none mbind result_bind]; try done.
  assert ((id, u) ∈ select_by_email s (login_email request)) as Hin
    by (rewrite E; apply elem_of_cons; by left).
  apply list_elem_of_filter in Hin as [He Hin].
  apply elem_of_map_to_list in Hin.
  destruct (verify_password lib _ _) as [[]|] eqn:Hpw; try done.
  cbn [negb]. intros [= <-]. by exists id, u.
Qed.

Lemma login_only_with_valid_password_witness :
  ∃ id u,
    demo_store !! id = Some u
    ∧ email u = "test@example.com"
    ∧ verify_password demo_lib "Passw0rd1" (hashed_password u) = Ok true
    ∧ token_pair demo_lib demo_settings 1 T0 T0
      = token_pair demo_lib demo_settings id T0 T0.
Proof.
  apply (login_only_with_valid_password demo_lib demo_settings demo_store
           {| login_email := "test@example.com";
              login_password := "Passw0rd1" |} T0 T0).
  vm_compute. reflexivity.
Defined.

(** ** Administration of users *)

(** X15. A role change fails with 404, the table untouched, for an
    unknown id.  Otherwise the target gets the new role and keeps its
    email, password hash, names, verification state and creation time;
    nothing is written when the role is already the requested one; no
    other account changes; and after a change to ADMIN the row passes
    the admin dependency. *)
Theorem update_user_role_spec (s : gmap Z User) user_id new_role t_db :
  let out := update_user_role s user_id new_role t_db in
  (s !! user_id = None → out = (s, Raise (user_not_found user_id)))
  ∧ (∀ u, s !! user_id = Some u →
       ∃ row,
         out.1 !! user_id = Some row
         ∧ out.2 = Ok (user_id, row)
         ∧ role row = new_role
         ∧ role_frame row = role_frame u
         ∧ (role u = new_role → out.1 = s ∧ row = u)
         ∧ (new_role = ADMIN → require_admin (user_id, row) = Ok (user_id, row)))
  ∧ (∀ k, k ≠ user_id → out.1 !! k = s !! k).
Proof.
  cbn zeta. unfold update_user_role, select_by_id.
  destruct (s !! user_id) as [u|] eqn:Hu; cbn [scalar_one_or_none].
  2:{ by repeat split. }
  split; [done|].
  case_bool_decide as Heq.
  - split; [|done]. intros u' [= <-]. exists u. cbn [fst snd].
    assert (role u = new_role) as Hr by (by rewrite <- Heq at 1).
    do 5 (split; [done|]).
    intros ->. unfold require_admin. cbn [snd]. rewrite Hr.
    by rewrite bool_decide_eq_false_2 by (intros H; by apply H).
  - split.
    + intros u' [= <-]. eexists. cbn [fst snd].
      split; [apply lookup_insert_eq|]. do 3 (split; [done|]). split.
      * intros Hr. destruct Heq. destruct u; simpl in *; by subst.
      * intros ->. unfold require_admin. cbn [snd touch role].
        by rewrite bool_decide_eq_false_2 by (intros H; by apply H).
    + intros k Hk. cbn [fst]. by rewrite lookup_insert_ne.
Qed.

Lemma update_user_role_spec_witness :
  ∃ row,
    (update_user_role demo_store 1 ADMIN (T0 + 5)).1 !! 1 = Some row
    ∧ role row = ADMIN
    ∧ require_admin (1, row) = Ok (1, row)
    ∧ update_user_role demo_store 7 ADMIN (T0 + 5)
      = (demo_store, Raise (user_not_found 7)).
Proof.
  destruct (update_user_role_spec demo_store 1 ADMIN (T0 + 5))
    as (_ & Hset & _).
  destruct (Hset (demo_user "test@example.com" T0) eq_refl)
    as (row & Hrow & _ & Hrole & _ & _ & Hadmin).
  exists row. split; [exact Hrow|]. split; [exact Hrole|].
  split; [exact (Hadmin eq_refl)|].
  apply (proj1 (update_user_role_spec demo_store 7 ADMIN (T0 + 5))).
  reflexivity.
Defined.

(** X16. [delete_user] fails with 404, the table untouched, for an
    unknown id; otherwise it removes that account and no other and
    reports the id.  Deleting the same id again fails with 404. *)
Theorem delete_user_spec (s : gmap Z User) user_id :
  let out := delete_user s user_id in
  (s !! user_id = None → out = (s, Raise (user_not_found user_id)))
  ∧ (∀ u, s !! user_id = Some u →
       out.1 !! user_id = None
       ∧ (∀ k, k ≠ user_id → out.1 !! k = s !! k)
       ∧ out.2 = Ok {| delete_message :=
                         "User " +:+ email u +:+ " deleted successfully";
                       deleted_user_id := user_id |}
       ∧ delete_user out.1 user_id = (out.1, Raise (user_not_found user_id))).
Proof.
  cbn zeta. split.
  - intros Hu. unfold delete_user, select_by_id. by rewrite Hu.
  - intros u Hu.
    assert (delete_user s user_id
            = (delete user_id s,
               Ok {| delete_message :=
                       "User " +:+ email u +:+ " deleted successfully";
                     deleted_user_id := user_id |})) as ->.
    { unfold delete_user, select_by_id. by rewrite Hu. }
    cbn [fst snd]. split; [apply lookup_delete_eq|].
    split; [intros k Hk; by apply lookup_delete_ne|].
    split; [done|].
    unfold delete_user, select_by_id. by rewrite lookup_delete_eq.
Qed.

Lemma delete_user_spec_witness :
  (delete_user demo_store 1).1 !! 1 = None
  ∧ delete_user demo_store 5 = (demo_store, Raise (user_not_found 5)).
Proof.
  split.
  - apply (proj2 (delete_user_spec demo_store 1)
             (demo_user "test@example.com" T0) eq_refl).
  - apply (proj1 (delete_user_spec demo_store 5)). reflexivity.
Defined.

(** X17. Tokens outlive their account but not its lookup: after
    [delete_user], a still valid access token of the deleted account
    gets 404 at the bearer check, and a still valid refresh token gets
    404 at the refresh operation. *)
Theorem deleted_user_tokens lib settings (s : gmap Z User) user_id u
    t_issue now t_access t_refresh :
  jws_sound lib (SECRET_KEY settings) (ALGORITHM settings) →
  s !! user_id = Some u →
  now ≤ t_issue + timedelta_minutes (ACCESS_TOKEN_EXPIRE_MINUTES settings) →
  now ≤ t_issue + timedelta_days (REFRESH_TOKEN_EXPIRE_DAYS settings) →
  let s' := (delete_user s user_id).1 in
  get_current_user lib settings s'
    (create_access_token lib settings (sub_claims user_id) None t_issue) now
  = Raise (HTTPException HTTP_404_NOT_FOUND "User not found" [])
  ∧ refresh_access_token lib settings s'
      (create_refresh_token lib settings (sub_claims user_id) t_issue)
      now t_access t_refresh
    = Raise (HTTPException HTTP_404_NOT_FOUND "User not found" []).
Proof.
  intros Hsound Hu Hwa Hwr. cbn zeta.
  assert ((delete_user s user_id).1 !! user_id = None) as Hgone.
  { unfold delete_user, select_by_id. rewrite Hu. apply lookup_delete_eq. }
  split.
  - rewrite (get_current_user_decoded _ _ _ _ _ _
               (decode_access_token _ _ _ _ _ Hsound Hwa)).
    destruct (access_claims_lookup user_id (access_exp settings t_issue))
      as (_ & Hsub & _).
    by rewrite (payload_get_Some _ _ _ Hsub), py_int_str, Hgone.
  - unfold refresh_access_token.
    rewrite (decode_refresh_token _ _ _ _ _ Hsound Hwr).
    destruct (refresh_claims_lookup user_id (refresh_exp settings t_issue))
      as (_ & Hsub & Htype).
    cbn [mbind result_bind try_except].
    rewrite (payload_get_Some _ _ _ Htype).
    rewrite bool_decide_eq_false_2 by (intros H; by apply H).
    rewrite (payload_get_Some _ _ _ Hsub), py_int_str.
    cbn [mbind result_bind try_except]. unfold select_by_id.
    by rewrite Hgone.
Qed.

Lemma deleted_user_tokens_witness :
  let s' := (delete_user demo_store 1).1 in
  get_current_user demo_lib demo_settings s'
    (create_access_token demo_lib demo_settings (sub_claims 1) None T0)
    (T0 + 5)
  = Raise (HTTPException HTTP_404_NOT_FOUND "User not found" [])
  ∧ refresh_access_token demo_lib demo_settings s'
      (create_refresh_token demo_lib demo_settings (sub_claims 1) T0)
      (T0 + 5) (T0 + 5) (T0 + 5)
    = Raise (HTTPException HTTP_404_NOT_FOUND "User not found" []).
Proof.
  apply (deleted_user_tokens demo_lib demo_settings demo_store 1
           (demo_user "test@example.com" T0) T0 (T0 + 5) (T0 + 5) (T0 + 5)
           (demo_sound _ _) eq_refl).
  - vm_compute. discriminate.
  - vm_compute. discriminate.
Defined.

Lemma validate_rows_elem lib rows l :
  validate_rows lib rows = Ok l →
  length l = length rows
  ∧ ∀ r, r ∈ l ↔ ∃ x, x ∈ rows ∧ model_validate lib x.1 x.2 = Ok r.
Proof.
  revert l. induction rows as [|x rows IH]; intros l; cbn [validate_rows].
  - intros [= <-]. split; [done|]. intros r. split.
    + intros H. by apply elem_of_nil in H.
    + intros (y & H & _). by apply elem_of_nil in H.
  - destruct (model_validate lib x.1 x.2) as [resp|e] eqn:Hx;
      cbn [mbind result_bind]; [|done].
    destruct (validate_rows lib rows) as [resps|e] eqn:Hrows;
      cbn [mbind result_bind]; [|done].
    intros [= <-]. destruct (IH resps eq_refl) as [Hlen Hmem].
    split; [cbn [length]; by rewrite Hlen|].
    intros r. rewrite elem_of_cons, Hmem. split.
    + intros [->|(y & Hy & Hr)].
      * exists x. split; [apply elem_of_cons; by left|done].
      * exists y. split; [apply elem_of_cons; by right|done].
    + intros (y & Hy & Hr). apply elem_of_cons in Hy as [->|Hy].
      * left. congruence.
      * right. by exists y.
Qed.

Lemma validate_rows_is_Ok lib rows :
  is_Ok (validate_rows lib rows)
  ↔ ∀ x, x ∈ rows → is_Ok (model_validate lib x.1 x.2).
Proof.
  induction rows as [|x rows IH]; cbn [validate_rows].
  - split; [|done]. intros _ y H. by apply elem_of_nil in H.
  - split.
    + intros Hok y Hy.
      destruct (model_validate lib x.1 x.2) as [resp|e] eqn:Hx;
        cbn [mbind result_bind] in Hok; [|done].
      apply elem_of_cons in Hy as [->|Hy]; [by rewrite Hx|].
      apply IH; [|done].
      by destruct (validate_rows lib rows).
    + intros Hall.
      pose proof (Hall x (proj2 (elem_of_cons _ _ _) (or_introl eq_refl)))
        as Hx.
      destruct (model_validate lib x.1 x.2) as [resp|e]; [|done].
      cbn [mbind result_bind].
      assert (is_Ok (validate_rows lib rows)) as Hrows.
      { apply IH. intros y Hy. apply Hall, elem_of_cons. by right. }
      by destruct (validate_rows lib rows).
Qed.

(** X18. A response is built from a row exactly when the stored email
    passes the email check and neither stored name has more than fifty
    characters.  [get_all_users] succeeds exactly when every row of the
    table yields a response, and then returns one response per account;
    [get_user_by_id] returns the response of the account with that id,
    fails as the response does, and answers 404 when there is no such
    account. *)
Theorem user_listing lib (s : gmap Z User) :
  (∀ id u,
     is_Ok (model_validate lib id u)
     ↔ is_Some (validate_email lib (email u))
       ∧ too_long (first_name u) = false
       ∧ too_long (last_name u) = false)
  ∧ (is_Ok (get_all_users lib s)
     ↔ ∀ id u, s !! id = Some u → is_Ok (model_validate lib id u))
  ∧ (∀ l, get_all_users lib s = Ok l →
          length l = size s
          ∧ ∀ r, r ∈ l
                 ↔ ∃ id u, s !! id = Some u ∧ model_validate lib id u = Ok r)
  ∧ (∀ id,
       get_user_by_id lib s id
       = match s !! id with
         | Some u => model_validate lib id u
         | None => Raise (user_not_found id)
         end).
Proof.
  split; [|split; [|split]].
  - intros id u. unfold model_validate.
    destruct (validate_email lib (email u)) as [n|].
    + destruct (too_long (first_name u)), (too_long (last_name u));
        cbn [orb is_Ok]; split; try done; try (by intros (_ & ? & ?)).
    + split; [done|]. intros [[x Hx] _]. done.
  - unfold get_all_users. rewrite validate_rows_is_Ok. split.
    + intros Hall id u Hu. apply (Hall (id, u)). by apply elem_of_map_to_list.
    + intros Hall [id u] Hin. apply Hall. by apply elem_of_map_to_list.
  - intros l Hl. unfold get_all_users in Hl.
    destruct (validate_rows_elem lib _ l Hl) as [Hlen Hmem].
    split; [by rewrite Hlen, length_map_to_list|].
    intros r. rewrite Hmem. split.
    + intros ([id u] & Hin & Hr). apply elem_of_map_to_list in Hin. eauto.
    + intros (id & u & Hu & Hr). exists (id, u).
      split; [by apply elem_of_map_to_list|done].
  - intros id. unfold get_user_by_id, select_by_id.
    by destruct (s !! id).
Qed.

(** ** The admin update in full *)

Lemma scalar_one_or_none_None {A} (l : list A) :
  scalar_one_or_none l = Ok None ↔ l = [].
Proof. destruct l as [|x [|y l]]; simpl; split; done. Qed.

Lemma select_email_other_none (s : gmap Z User) e user_id :
  (∀ k v, k ≠ user_id → s !! k = Some v → email v ≠ e)
  ↔ select_email_other s (Some e) user_id = [].
Proof.
  unfold select_email_other. split.
  - intros Hno.
    destruct (filter _ _) as [|[k v] l] eqn:E; [done|].
    assert ((k, v) ∈ filter (λ r : Z * User, email r.2 = e ∧ r.1 ≠ user_id)
                       (map_to_list s)) as Hin
      by (rewrite E; apply elem_of_cons; by left).
    apply list_elem_of_filter in Hin as [[He Hk] Hin].
    apply elem_of_map_to_list in Hin. by destruct (Hno k v Hk Hin).
  - intros Hnil k v Hk Hv He.
    assert ((k, v) ∈ filter (λ r : Z * User, email r.2 = e ∧ r.1 ≠ user_id)
                       (map_to_list s)) as Hin.
    { apply list_elem_of_filter. split; [done|]. by apply elem_of_map_to_list. }
    rewrite Hnil in Hin. by apply elem_of_nil in Hin.
Qed.

Lemma select_email_other_one (s : gmap Z User) e user_id k v :
  unique_emails s → k ≠ user_id → s !! k = Some v → email v = e →
  select_email_other s (Some e) user_id = [(k, v)].
Proof.
  intros Huniq Hk Hv He. unfold select_email_other.
  apply NoDup_only_elem.
  - apply NoDup_filter, NoDup_map_to_list.
  - intros [j w]. rewrite list_elem_of_filter, elem_of_map_to_list. simpl.
    split.
    + intros [[Hw _] Hj]. assert (j = k) as ->.
      { apply (Huniq j k w v Hj Hv). congruence. }
      congruence.
    + by intros [= -> ->].
Qed.

Lemma update_fold u d :
  foldl (fun obj fv => setattr obj fv.1 fv.2) (u, false)
    (model_dump_exclude_unset d)
  = (patched u d, bool_decide (upd_email d = Some None)).
Proof.
  destruct u, d as [[f|] [l|] [[e|]|]]; reflexivity.
Qed.

(** [update_user] on an existing target, step by step. *)
Lemma update_user_eq lib (s : gmap Z User) user_id d t_db u :
  s !! user_id = Some u →
  update_user lib s user_id d t_db
  = match model_dump_exclude_unset d with
    | [] => (s, Raise (bad_request "No fields provided for update"))
    | _ =>
        match
          match upd_email d with
          | Some e => scalar_one_or_none (select_email_other s e user_id)
          | None => Ok None
          end
        with
        | Raise e => (s, Raise e)
        | Ok (Some _) => (s, Raise (bad_request "Email already in use"))
        | Ok None =>
            if bool_decide (upd_email d = Some None) then
              (s, Raise (IntegrityError "null value in column email"))
            else if bool_decide (patched u d = u) then
              (s, model_validate lib user_id u)
            else
              (<[user_id := touch (patched u d) t_db]> s,
               model_validate lib user_id (touch (patched u d) t_db))
        end
    end.
Proof.
  intros Hu. unfold update_user, select_by_id. rewrite Hu.
  cbn [scalar_one_or_none]. rewrite update_fold.
  destruct (model_dump_exclude_unset d); [done|].
  by destruct (match upd_email d with
               | Some e => scalar_one_or_none (select_email_other s e user_id)
               | None => Ok None
               end) as [[]|].
Qed.

(** X19. The admin update fails with 404 for an unknown id, with 400 when
    no field is given, with 400 when the requested email belongs to
    another account, and with an integrity error when the email is given
    as null; in each of these cases the table is untouched.  Otherwise
    the given fields, and only they, are written to the target, the row
    is stamped only when something changed, and the answer is the
    response built from the stored row: when that row does not pass the
    response validation the call fails after the write, the table
    changed. *)
Theorem update_user_spec lib (s : gmap Z User) user_id d t_db :
  let out := update_user lib s user_id d t_db in
  (s !! user_id = None → out = (s, Raise (user_not_found user_id)))
  ∧ (∀ u, s !! user_id = Some u →
       (model_dump_exclude_unset d = [] →
        out = (s, Raise (bad_request "No fields provided for update")))
       ∧ (∀ e k v,
            unique_emails s → upd_email d = Some (Some e) →
            k ≠ user_id → s !! k = Some v → email v = e →
            out = (s, Raise (bad_request "Email already in use")))
       ∧ (upd_email d = Some None →
          out = (s, Raise (IntegrityError "null value in column email")))
       ∧ (model_dump_exclude_unset d ≠ [] →
          (upd_email d = None
           ∨ ∃ e, upd_email d = Some (Some e)
                  ∧ ∀ k v, k ≠ user_id → s !! k = Some v → email v ≠ e) →
          out = if bool_decide (patched u d = u)
                then (s, model_validate lib user_id u)
                else (<[user_id := touch (patched u d) t_db]> s,
                      model_validate lib user_id (touch (patched u d) t_db)))).
Proof.
  cbn zeta. split.
  { intros Hu. unfold update_user, select_by_id. by rewrite Hu. }
  intros u Hu. rewrite (update_user_eq lib s user_id d t_db u Hu).
  split; [by intros ->|]. split; [|split].
  - intros e k v Huniq He Hk Hv Hev. rewrite He.
    rewrite (select_email_other_one s e user_id k v Huniq Hk Hv Hev).
    destruct d as [[f|] [l|] em]; simpl in *; by subst.
  - intros He. rewrite He. cbn [select_email_other scalar_one_or_none].
    rewrite bool_decide_eq_true_2 by done.
    destruct d as [[f|] [l|] em]; simpl in *; by subst.
  - intros Hne Hem.
    destruct (model_dump_exclude_unset d) as [|fv l] eqn:Hd; [done|].
    destruct Hem as [->|(e & -> & Hno)].
    + by rewrite bool_decide_eq_false_2.
    + apply select_email_other_none in Hno. rewrite Hno.
      cbn [scalar_one_or_none]. by rewrite bool_decide_eq_false_2.
Qed.

Lemma update_user_spec_witness :
  let jane :=
    {| upd_first_name := Some (Some "Jane"); upd_last_name := None;
       upd_email := None |} in
  update_user demo_lib demo_store 5 jane (T0 + 5)
  = (demo_store, Raise (user_not_found 5))
  ∧ update_user demo_lib demo_store 1 jane (T0 + 5)
    = (<[1 := touch (patched (demo_user "test@example.com" T0) jane) (T0 + 5)]>
         demo_store,
       model_validate demo_lib 1
         (touch (patched (demo_user "test@example.com" T0) jane) (T0 + 5))).
Proof.
  intros jane. split.
  - apply (proj1 (update_user_spec demo_lib demo_store 5 jane (T0 + 5))).
    reflexivity.
  - destruct (proj2 (update_user_spec demo_lib demo_store 1 jane (T0 + 5))
                (demo_user "test@example.com" T0) eq_refl)
      as (_ & _ & _ & Hok).
    rewrite Hok; [reflexivity|discriminate|by left].
Defined.

(** ** The admin script *)









(** ** The unique-email invariant *)

Lemma select_by_email_nil_inv (s : gmap Z User) e :
  select_by_email s e = [] → ∀ id u, s !! id = Some u → email u ≠ e.
Proof.
  intros Hnil id u Hu He.
  assert ((id, u) ∈ select_by_email s e) as Hin.
  { apply list_elem_of_filter. split; [done|]. by apply elem_of_map_to_list. }
  rewrite Hnil in Hin. by apply elem_of_nil in Hin.
Qed.

Lemma select_by_email_elem (s : gmap Z User) e id u l :
  select_by_email s e = (id, u) :: l → s !! id = Some u ∧ email u = e.
Proof.
  intros E.
  assert ((id, u) ∈ select_by_email s e) as Hin
    by (rewrite E; apply elem_of_cons; by left).
  apply list_elem_of_filter in Hin as [He Hin].
  by apply elem_of_map_to_list in Hin.
Qed.

(** X23. No operation of the service breaks the uniqueness of emails:
    on a table where no two accounts share an email, registration,
    verification, code resend, admin update, role change, deletion, the
    admin script and the cleanup task all leave such a table. *)
Theorem unique_emails_preserved lib settings (s : gmap Z User) :
  unique_emails s →
  (∀ request rng salt_pw salt_code t_exp t_db t_access t_refresh,
     unique_emails
       (register_user lib settings s request rng salt_pw salt_code
          t_exp t_db t_access t_refresh).1)
  ∧ (∀ code id u now t_db,
       s !! id = Some u →
       unique_emails (verify_email lib s code id u now t_db).1)
  ∧ (∀ id u rng salt t_exp t_db,
       s !! id = Some u →
       unique_emails
         (resend_verification_code lib settings s id u rng salt t_exp t_db).1)
  ∧ (∀ user_id d t_db, unique_emails (update_user lib s user_id d t_db).1)
  ∧ (∀ user_id new_role t_db,
       unique_emails (update_user_role s user_id new_role t_db).1)
  ∧ (∀ user_id, unique_emails (delete_user s user_id).1)
  ∧ (∀ e password salt t_db,
       unique_emails (create_admin_user lib s e password salt t_db).1)
  ∧ (∀ now, unique_emails (run_store (_cleanup_unverified settings s now))).
Proof.
  intros Huniq. repeat apply conj.
  - intros. unfold register_user.
    destruct (select_by_email s (signup_email request)) as [|x [|y l]] eqn:E;
      cbn [scalar_one_or_none fst]; try done.
    apply unique_emails_insert; [done|]. intros j v _ Hj.
    by apply (select_by_email_nil_inv s _ E j v).
  - intros code id u now t_db Hu. unfold verify_email.
    destruct (is_verified u); [done|].
    destruct (negb (truthy_str (verification_code u))); [done|].
    destruct (match verification_code_expires_at u with
              | Some e => code_expired e now
              | None => Ok false
              end) as [[]|]; try done.
    destruct (verify_password lib code _) as [[]|]; try done.
    by apply (unique_emails_same_email s id u).
  - intros id u rng salt t_exp t_db Hu. unfold resend_verification_code.
    destruct (is_verified u); [done|]. case_bool_decide; [done|].
    by apply (unique_emails_same_email s id u).
  - intros user_id d t_db.
    destruct (s !! user_id) as [u|] eqn:Hu.
    2:{ unfold update_user, select_by_id. by rewrite Hu. }
    rewrite (update_user_eq lib s user_id d t_db u Hu).
    destruct (model_dump_exclude_unset d); [done|].
    destruct (upd_email d) as [[e|]|] eqn:He.
    + destruct (select_email_other s (Some e) user_id) as [|x [|y l']] eqn:E;
        cbn [scalar_one_or_none fst]; try done.
      rewrite bool_decide_eq_false_2 by done.
      case_bool_decide; [done|]. cbn [fst].
      apply unique_emails_insert; [done|]. intros j v Hj Hv.
      cbn [touch email patched]. rewrite He.
      by apply (proj2 (select_email_other_none s e user_id) E j v).
    + cbn [select_email_other scalar_one_or_none].
      by rewrite bool_decide_eq_true_2.
    + rewrite bool_decide_eq_false_2 by done.
      case_bool_decide; [done|]. cbn [fst].
      apply (unique_emails_same_email s user_id u); [done..|].
      cbn [touch email patched]. by rewrite He.
  - intros user_id new_role t_db. unfold update_user_role, select_by_id.
    destruct (s !! user_id) as [u|] eqn:Hu; cbn [scalar_one_or_none]; [|done].
    case_bool_decide; [done|].
    by apply (unique_emails_same_email s user_id u).
  - intros user_id. unfold delete_user, select_by_id.
    destruct (s !! user_id) as [u|] eqn:Hu; cbn [scalar_one_or_none]; [|done].
    apply (unique_emails_subset s); [done|].
    intros k v Hk. cbn [fst] in Hk.
    by apply lookup_delete_Some in Hk as [_ Hk].
  - intros e password salt t_db. unfold create_admin_user.
    destruct (select_by_email s e) as [|[id u] [|y l]] eqn:E;
      cbn [scalar_one_or_none fst]; try done.
    + apply unique_emails_insert; [done|]. intros j v _ Hj.
      by apply (select_by_email_nil_inv s _ E j v).
    + destruct (select_by_email_elem s e id u [] E) as [Hu He].
      case_bool_decide; [done|].
      by apply (unique_emails_same_email s id u).
  - intros now. apply (unique_emails_subset s); [done|].
    intros k v Hk. rewrite cleanup_store_lookup in Hk.
    destruct (s !! k) as [w|]; [|done].
    destruct (stale settings now w); [done|]. done.
Qed.

Lemma unique_emails_preserved_witness :
  unique_emails
    (register_user demo_lib demo_settings demo_store
       {| signup_email := "new@example.com"; signup_password := "Passw0rd1";
          signup_first_name := None; signup_last_name := None |}
       demo_rng "saltA" "saltB" T0 T0 T0 T0).1.
Proof.
  exact (proj1 (unique_emails_preserved demo_lib demo_settings demo_store
                  demo_store_unique) _ _ _ _ _ _ _ _).
Defined.

(** ** The admin routes *)

(** X24. The routes that list, read, update and delete users, called
    with a valid access token: for a bearer who is not an admin each of
    them fails with 403 and the table is untouched; for an admin each of
    them is the service operation itself. *)
Theorem admin_routes_guard lib settings (s : gmap Z User) id u t_issue t_auth
    user_id d t_db :
  jws_sound lib (SECRET_KEY settings) (ALGORITHM settings) →
  t_auth ≤ t_issue + timedelta_minutes (ACCESS_TOKEN_EXPIRE_MINUTES settings) →
  s !! id = Some u →
  let token :=
    create_access_token lib settings (sub_claims id) None t_issue in
  let forbidden :=
    HTTPException HTTP_403_FORBIDDEN "Admin access required" [] in
  (role u ≠ ADMIN →
     route_update_user lib settings s token user_id d t_auth t_db
     = (s, Raise forbidden)
     ∧ route_delete_user lib settings s token user_id t_auth
       = (s, Raise forbidden)
     ∧ route_list_all_users lib settings s token t_auth = Raise forbidden
     ∧ route_get_user lib settings s token user_id t_auth = Raise forbidden)
  ∧ (role u = ADMIN →
       route_update_user lib settings s token user_id d t_auth t_db
       = update_user lib s user_id d t_db
       ∧ route_delete_user lib settings s token user_id t_auth
         = delete_user s user_id
       ∧ route_list_all_users lib settings s token t_auth
         = get_all_users lib s
       ∧ route_get_user lib settings s token user_id t_auth
         = get_user_by_id lib s user_id).
Proof.
  intros Hsound Hwin Hu. cbn zeta.
  unfold route_update_user, route_delete_user, route_list_all_users,
    route_get_user, admin_dependency.
  rewrite (bearer_with_access_token _ _ _ _ _ _ _ Hsound Hwin Hu).
  cbn [mbind result_bind]. unfold require_admin. cbn [snd].
  split; intros Hr.
  - by rewrite bool_decide_eq_true_2.
  - by rewrite bool_decide_eq_false_2 by (intros H; by apply H).
Qed.

Lemma admin_routes_guard_witness :
  let token :=
    create_access_token demo_lib demo_settings (sub_claims 1) None T0 in
  route_delete_user demo_lib demo_settings demo_store token 1 (T0 + 5)
  = (demo_store,
     Raise (HTTPException HTTP_403_FORBIDDEN "Admin access required" [])).
Proof.
  intros token.
  destruct (admin_routes_guard demo_lib demo_settings demo_store 1
              (demo_user "test@example.com" T0) T0 (T0 + 5) 1
              {| upd_first_name := None; upd_last_name := None;
                 upd_email := None |} (T0 + 5) (demo_sound _ _))
    as [Hno _].
  - vm_compute. discriminate.
  - reflexivity.
  - destruct Hno as (_ & Hdel & _); [discriminate|exact Hdel].
Defined.

(** ** The cleanup report *)

Lemma Ok_inj {A} (x y : A) : Ok x = Ok y → x = y.
Proof. by intros [= ->]. Qed.

(** X25. In a report of the cleanup task no id occurs twice, the emails
    are those of the listed accounts in the same order, every listed
    account was stale, and the cutoff date is present exactly when
    something was deleted. *)
Theorem cleanup_report_rows settings (s : gmap Z User) now report :
  run_result (_cleanup_unverified settings s now) = Ok report →
  NoDup (user_ids report)
  ∧ length (emails report) = length (user_ids report)
  ∧ (∀ i id,
       user_ids report !! i = Some id →
       ∃ u, s !! id = Some u
            ∧ emails report !! i = Some (email u)
            ∧ stale settings now u = true)
  ∧ (cutoff_date report = None ↔ deleted report = 0).
Proof.
  rewrite cleanup_run_eq. cbn zeta.
  pose proof (select_stale_elem settings s now) as Hel.
  assert (NoDup (select_stale s
                   (dt_sub (utc_now now)
                      (timedelta_days (UNVERIFIED_USER_DELETE_DAYS settings)))))
    as Hnd by apply NoDup_filter, NoDup_map_to_list.
  destruct (select_stale s _) as [|r rows] eqn:E.
  - intros [= <-]. cbn. repeat split; try done. apply NoDup_nil_2.
  - set (L := r :: rows) in *. intros Hrep.
    apply Ok_inj in Hrep. subst report.
    cbv beta iota delta [user_ids emails cutoff_date deleted].
    change (map ?f L) with (f <$> L). split; [|split; [|split]].
    + apply NoDup_fmap_fst; [|done].
      intros k u1 u2 H1 H2. apply Hel in H1 as [H1 _], H2 as [H2 _].
      congruence.
    + by rewrite !length_fmap.
    + intros i id Hi. apply list_lookup_fmap_Some in Hi as ([k u] & -> & Hi).
      exists u. rewrite list_lookup_fmap, Hi.
      apply list_elem_of_lookup_2, Hel in Hi as [Hk Hst]. done.
    + split; [done|]. rewrite length_fmap. subst L. cbn [length]. lia.
Qed.

Lemma cleanup_report_rows_witness :
  ∃ report,
    run_result (_cleanup_unverified demo_settings cleanup_store
                  (T0 + timedelta_days 40)) = Ok report
    ∧ NoDup (user_ids report)
    ∧ length (emails report) = 2%nat.
Proof.
  eexists. split; [reflexivity|].
  destruct (cleanup_report_rows demo_settings cleanup_store
              (T0 + timedelta_days 40) _ eq_refl) as (Hnd & Hlen & _).
  split; [exact Hnd|]. rewrite Hlen. reflexivity.
Defined.

(** ** Names the response schema refuses *)





